(** * safe_dataframe: schema-governed data frames and transform pipelines

    A shallow embedding of [safe_dataframe/data.py] and
    [safe_dataframe/transforms.py].  Python objects whose identity or
    mutation matters ([Columns] instances, which cache their schema, and
    [BaseData] instances) live in a store and are handled through
    references; methods are computations in a state-and-exception monad.
    The table engine (pandas) and the validation engine (pandera) are
    external to the package: the fragments the package calls are modelled
    in the modules [pd] and [pa]. *)

From Stdlib Require Import ZArith Floats.PrimFloat Numbers.Cyclic.Int63.Uint63.
From stdpp Require Import base option list strings gmap.

Local Open Scope string_scope.
Local Open Scope list_scope.

(** ** Python results: exceptions, warnings and log records *)

Inductive exn :=
  | SchemaError                          (* pandera.errors.SchemaError *)
  | KeyError (missing : list string)     (* labels not found in an axis *)
  | ValidationError (field : string)     (* pydantic: a required field is absent *)
  | ZeroDivisionError
  | RuntimeError (msg : string).         (* anything a user transform raises *)

Inductive Result (A : Type) :=
  | Ok (a : A)
  | Raise (e : exn).
Arguments Ok {A} a.
Arguments Raise {A} e.

Inductive Event :=
  | UserWarning (message : string)                       (* warnings.warn(message, UserWarning) *)
  | LoggerInfo (fmt : string) (who : option string) (shape : nat * nat)
                                                         (* loguru: logger.info(fmt, [who,] shape) *)
  | Trace (tag : string).                                (* an observable effect of a user transform *)

(** ** The table engine (pandas), as far as the package uses it *)

Module pd.

Inductive scalar :=
  | Int (z : Z)
  | Str (s : string)
  | NA.                               (* None / NaN / pd.NA *)

Inductive DType := int64 | float64 | object | bool_.

Definition DType_eqb (a b : DType) : bool :=
  match a, b with
  | int64, int64 | float64, float64 | object, object | bool_, bool_ => true
  | _, _ => false
  end.

Record Series := { dtype : DType; values : list scalar }.

(** A frame is a row index and a sequence of labelled columns.  Column
    labels are kept in order; pandas itself does not require them to be
    distinct. *)
Record DataFrame := { index : list Z; items : list (string * Series) }.

Definition columns (df : DataFrame) : list string := map fst (items df).

(** [df.shape] *)
Definition shape (df : DataFrame) : nat * nat :=
  (length (index df), length (columns df)).

(** [df.empty]: true when any axis has length 0. *)
Definition empty (df : DataFrame) : bool :=
  (length (index df) =? 0)%nat || (length (columns df) =? 0)%nat.

(** The columns of [df] carrying label [key], in frame order. *)
Definition labelled (key : string) (df : DataFrame) : list (string * Series) :=
  filter (fun kv => fst kv = key) (items df).

(** [df[keys]] for a list of labels: the matching columns in the order
    of [keys]; KeyError naming the labels that match nothing. *)
Definition getitem (df : DataFrame) (keys : list string) : Result DataFrame :=
  match filter (fun k => labelled k df = []) keys with
  | [] => Ok {| index := index df;
                items := flat_map (fun k => labelled k df) keys |}
  | missing => Raise (KeyError missing)
  end.

(** The column of [df] labelled [key] (the first one, should the label
    be repeated). *)
Definition column (df : DataFrame) (key : string) : option Series :=
  snd <$> head (labelled key df).


Definition scalar_notna (v : scalar) : bool :=
  match v with NA => false | _ => true end.

(** [df.notna()]: a frame of booleans of the same shape. *)
Definition notna (df : DataFrame) : list (string * list bool) :=
  map (fun kv => (fst kv, map scalar_notna (values (snd kv)))) (items df).

(** [.sum(axis=0)] of a boolean frame: per column, how many cells are
    true, as an int64 Series labelled by the columns. *)
Definition sum_axis0 (bf : list (string * list bool)) : list (string * Z) :=
  map (fun kv => (fst kv, Z.of_nat (length (filter (fun b => b = true) (snd kv))))) bf.

(** int64 to float64 (rounding to nearest; counts and lengths are below
    2^63). *)
Definition to_float (z : Z) : float := PrimFloat.of_uint63 (Uint63.of_Z z).

(** [series / n] for an int64 Series and a Python int: true division in
    float64, element-wise, under IEEE 754 rules (no exception is raised
    for a zero divisor). *)
Definition truediv (s : list (string * Z)) (n : Z) : list (string * float) :=
  map (fun kv => (fst kv, PrimFloat.div (to_float (snd kv)) (to_float n))) s.

End pd.

(** ** The validation engine (pandera), as far as the package uses it *)

Module pa.

(** [pa.Column(dtype, nullable=...)] *)
Record Column := { dtype : pd.DType; nullable : bool }.

(** [pa.DataFrameSchema({name: Column, ...})] *)
Definition DataFrameSchema := list (string * Column).

Definition series_ok (c : Column) (s : pd.Series) : bool :=
  pd.DType_eqb (pd.dtype s) (dtype c)
  && (nullable c || forallb pd.scalar_notna (pd.values s)).

(** A declared column is satisfied when the frame has it, with the
    declared dtype and, unless nullable, without missing values. *)
Definition column_ok (df : pd.DataFrame) (nc : string * Column) : bool :=
  match pd.labelled (fst nc) df with
  | [] => false
  | found => forallb (fun kv => series_ok (snd nc) (snd kv)) found
  end.

Definition valid (schema : DataFrameSchema) (df : pd.DataFrame) : bool :=
  forallb (column_ok df) schema.

(** [schema.validate(df)]: returns the frame, or raises SchemaError. *)
Definition validate (schema : DataFrameSchema) (df : pd.DataFrame) : Result pd.DataFrame :=
  if valid schema df then Ok df else Raise SchemaError.

(** The ways a frame can fail a schema: a declared column is absent, or
    a column carrying a declared label has another dtype or, where the
    declaration is not nullable, a missing value. *)
Definition missing_column (schema : DataFrameSchema) (df : pd.DataFrame) : Prop :=
  exists name c, (name, c) ∈ schema /\ name ∉ pd.columns df.

Definition violates_constraints (schema : DataFrameSchema) (df : pd.DataFrame) : Prop :=
  exists name c s, (name, c) ∈ schema /\ (name, s) ∈ pd.items df /\
    (pd.dtype s ≠ dtype c \/ (nullable c = false /\ pd.NA ∈ pd.values s)).

End pa.

(** ** Objects and the store *)

Definition ref := nat.

(** A Python [dict] with string keys and values, in insertion order. *)
Abbreviation dict := (list (string * string)) (only parsing).

Definition dict_get (d : dict) (k : string) : option string :=
  snd <$> find (fun kv => bool_decide (fst kv = k)) d.

(** [d[k] = v]: overwrite in place when the key is present, append otherwise. *)
Fixpoint dict_set (d : dict) (k v : string) : dict :=
  match d with
  | [] => [(k, v)]
  | (k', v') :: d' => if decide (k' = k) then (k, v) :: d' else (k', v') :: dict_set d' k v
  end.

(** A concrete subclass of [Columns]: its declared fields (each a [str],
    with its default when it has one) and its override of the abstract
    method [get_data_schema], a function of the instance's field values. *)
Record ColumnsClass := {
  columns_class_name : string;
  model_fields : list (string * option string);
  get_data_schema : dict -> pa.DataFrameSchema
}.

(** An instance of a [Columns] subclass: its class, its field values in
    declaration order, and the slot of the cached property [data_schema]. *)
Record ColumnsObj := {
  columns_class : ColumnsClass;
  fields : dict;
  data_schema_cache : option pa.DataFrameSchema
}.

(** A concrete subclass of [BaseData]. *)
Record DataClass := {
  __name__ : string;
  _column_class : ColumnsClass
}.

(** An instance of a [BaseData] subclass. *)
Record BaseDataObj := {
  __class__ : DataClass;
  columns : ref;               (* self.columns: a reference to a Columns instance *)
  _data : pd.DataFrame
}.

Record State := {
  columns_heap : list ColumnsObj;
  data_heap : list BaseDataObj;
  events : list Event
}.

(** ** The monad of method bodies: state and exceptions *)

Definition M (A : Type) : Type := State -> Result A * State.

Definition ret {A} (a : A) : M A := fun s => (Ok a, s).

Definition raise {A} (e : exn) : M A := fun s => (Raise e, s).

Definition bind {A B} (m : M A) (k : A -> M B) : M B :=
  fun s => match m s with
           | (Ok a, s') => k a s'
           | (Raise e, s') => (Raise e, s')
           end.

Notation "'let*' x ':=' m 'in' k" := (bind m (fun x => k))
  (at level 10, x name, m at level 100, k at level 200).
Notation "m ';;' k" := (bind m (fun _ => k))
  (at level 100, k at level 200, right associativity).

Definition lift {A} (r : Result A) : M A := fun s => (r, s).

Definition emit (e : Event) : M unit :=
  fun s => (Ok tt, {| columns_heap := columns_heap s;
                      data_heap := data_heap s;
                      events := events s ++ [e] |}).

(** Reading an object through a dangling reference cannot happen in a
    running program; the model reports it as an error. *)
Definition deref_columns (r : ref) : M ColumnsObj :=
  fun s => match columns_heap s !! r with
           | Some o => (Ok o, s)
           | None => (Raise (RuntimeError "dangling reference"), s)
           end.

Definition store_columns (r : ref) (o : ColumnsObj) : M unit :=
  fun s => (Ok tt, {| columns_heap := <[r := o]> (columns_heap s);
                      data_heap := data_heap s;
                      events := events s |}).

Definition alloc_columns (o : ColumnsObj) : M ref :=
  fun s => (Ok (length (columns_heap s)),
            {| columns_heap := columns_heap s ++ [o];
               data_heap := data_heap s;
               events := events s |}).

Definition deref_data (r : ref) : M BaseDataObj :=
  fun s => match data_heap s !! r with
           | Some o => (Ok o, s)
           | None => (Raise (RuntimeError "dangling reference"), s)
           end.

Definition alloc_data (o : BaseDataObj) : M ref :=
  fun s => (Ok (length (data_heap s)),
            {| columns_heap := columns_heap s;
               data_heap := data_heap s ++ [o];
               events := events s |}).

(** ** transforms.py *)

(** A transform instance: the name of its class and its [__call__], which
    may raise and may have effects. *)
Record BaseTransform := {
  transform_class_name : string;
  call : pd.DataFrame -> M pd.DataFrame
}.

(** [BaseTransform.__call__]: the identity transform. *)
Definition BaseTransform_call (data : pd.DataFrame) : M pd.DataFrame := ret data.

Definition identity_transform : BaseTransform :=
  {| transform_class_name := "BaseTransform"; call := BaseTransform_call |}.

Module Pipeline.

(** [self.transforms] is the tuple given to the constructor; [verbose] is
    the class attribute, 0 unless overridden. *)
Record t := { transforms : list BaseTransform; verbose : Z }.

(** The constructor, [Pipeline] applied to its positional arguments. *)
Definition __init__ (transforms : list BaseTransform) : t :=
  {| transforms := transforms; verbose := 0 |}.

(** The body of the [for] loop, over what is left of the iteration.  The
    receiver is threaded through and returned with the frame, so that a
    write to it would show in the result. *)
Fixpoint loop (self : t) (rest : list BaseTransform) (data : pd.DataFrame)
  : M (t * pd.DataFrame) :=
  match rest with
  | [] => ret (self, data)
  | func :: rest' =>
      let* data := call func data in
      (if (verbose self =? 1)%Z
       then emit (LoggerInfo "{} produces shape {}"
                    (Some (transform_class_name func)) (pd.shape data))
       else ret tt) ;;
      if pd.empty data then ret (self, data) else loop self rest' data
  end.

(** [Pipeline.__call__], with the receiver as it is when the call returns. *)
Definition run (self : t) (data : pd.DataFrame) : M (t * pd.DataFrame) :=
  (if (verbose self =? 1)%Z
   then emit (LoggerInfo "Start shape {}" None (pd.shape data))
   else ret tt) ;;
  loop self (transforms self) data.

(** [Pipeline.__call__]: what the caller receives. *)
Definition __call__ (self : t) (data : pd.DataFrame) : M pd.DataFrame :=
  let* r := run self data in ret (snd r).

(** A pipeline is itself a transform. *)
Definition as_transform (self : t) : BaseTransform :=
  {| transform_class_name := "Pipeline"; call := __call__ self |}.

End Pipeline.

(** ** data.py: Columns *)

Module Columns.

(** Field validation of the declarative-model base (pydantic): every
    declared field takes its value from the input mapping, else its
    default; a field with neither is an error.  Keys of the mapping that
    are not declared fields are ignored. *)
Fixpoint validate_fields (declared : list (string * option string)) (obj : dict)
  : Result dict :=
  match declared with
  | [] => Ok []
  | (name, default) :: declared' =>
      match (match dict_get obj name with Some v => Some v | None => default end) with
      | None => Raise (ValidationError name)
      | Some v =>
          match validate_fields declared' obj with
          | Ok vs => Ok ((name, v) :: vs)
          | Raise e => Raise e
          end
      end
  end.

(** [cls.model_validate(obj)] for a mapping [obj]: a new instance. *)
Definition model_validate (cls : ColumnsClass) (obj : dict) : M ref :=
  let* vs := lift (validate_fields (model_fields cls) obj) in
  alloc_columns {| columns_class := cls; fields := vs; data_schema_cache := None |}.

(** [cls()]: construction from the defaults alone. *)
Definition __init__ (cls : ColumnsClass) : M ref := model_validate cls [].

(** [self.model_dump(exclude=...)]: the declared fields in declaration
    order, without the excluded names.  The one computed field,
    [data_schema], is excluded at every call in the package, so it is
    never materialised here. *)
Definition model_dump (exclude : list string) (o : ColumnsObj) : dict :=
  filter (fun kv => fst kv ∉ exclude) (fields o).

(** The cached property [data_schema]: computed by [get_data_schema] on
    first access and kept on the instance. *)
Definition data_schema (self : ref) : M pa.DataFrameSchema :=
  let* o := deref_columns self in
  match data_schema_cache o with
  | Some schema => ret schema
  | None =>
      let schema := get_data_schema (columns_class o) (fields o) in
      store_columns self {| columns_class := columns_class o;
                            fields := fields o;
                            data_schema_cache := Some schema |} ;;
      ret schema
  end.

Definition dump_column_names (self : ref) : M dict :=
  let* o := deref_columns self in
  ret (model_dump ["data_schema"] o).

(** The dict comprehension [{name: f(name, val) for name, val in d.items()}]. *)
Definition dict_comprehension (f : string -> string -> string) (d : dict) : dict :=
  fold_left (fun acc kv => dict_set acc (fst kv) (f (fst kv) (snd kv))) d [].

Definition set_prefix (self : ref) (prefix : string) : M ref :=
  let* columns := dump_column_names self in
  let new_attrs := dict_comprehension (fun name val => prefix +:+ val) columns in
  let* o := deref_columns self in
  model_validate (columns_class o) new_attrs.

Definition validate_data (self : ref) (data : pd.DataFrame) : M unit :=
  let* schema := data_schema self in
  lift (pa.validate schema data) ;;
  ret tt.

(** [list(self.dump_column_names().keys())] *)
Definition columns (self : ref) : M (list string) :=
  let* d := dump_column_names self in ret (map fst d).

(** [list(self.dump_column_names().values())] *)
Definition get_names (self : ref) : M (list string) :=
  let* d := dump_column_names self in ret (map snd d).

End Columns.

(** ** data.py: BaseData *)

Module BaseData.

(** [cls(data, columns, skip_check)].  The instance enters the store
    when [__init__] returns; one whose [__init__] raises is never seen. *)
Definition __init__ (cls : DataClass) (data : pd.DataFrame)
                (columns : option ref) (skip_check : bool) : M ref :=
  let* columns := match columns with
                  | None => Columns.__init__ (_column_class cls)
                  | Some c => ret c
                  end in
  (if negb skip_check
   then Columns.validate_data columns data
   else emit (UserWarning ("Data check skipped " +:+ __name__ cls +:+ "."))) ;;
  alloc_data {| __class__ := cls; columns := columns; _data := data |}.

Definition default_columns (cls : DataClass) : M ref :=
  Columns.__init__ (_column_class cls).

(** The property [data]. *)
Definition data (self : ref) : M pd.DataFrame :=
  let* o := deref_data self in ret (_data o).

(** The property [c]. *)
Definition c (self : ref) : M ref :=
  let* o := deref_data self in ret (columns o).

(** The class method [from_dataframe]; [kwargs] can carry [skip_check],
    the only other parameter of the constructor. *)
Definition from_dataframe (cls : DataClass) (data : pd.DataFrame)
                          (columns : option ref) (transform : option BaseTransform)
                          (kwargs : option bool) : M ref :=
  let* data := match transform with
               | Some transform => call transform data
               | None => ret data
               end in
  let* columns := match columns with
                  | None => default_columns cls
                  | Some c => ret c
                  end in
  __init__ cls data (Some columns) (default false kwargs).

Definition new_data (self : ref) (data : pd.DataFrame) : M ref :=
  let* o := deref_data self in
  from_dataframe (__class__ o) data (Some (columns o)) None None.

Definition transform (self : ref) (transform : BaseTransform) : M ref :=
  let* o := deref_data self in
  from_dataframe (__class__ o) (_data o) (Some (columns o)) (Some transform) None.

Definition get_values_presence (self : ref) (columns : list string)
  : M (list (string * float)) :=
  let* data := data self in
  let* selected := lift (pd.getitem data columns) in
  ret (pd.truediv (pd.sum_axis0 (pd.notna selected))
                  (Z.of_nat (length (pd.index data)))).

Definition truncate_columns (self : ref) : M ref :=
  let* data := data self in
  let* c := c self in
  let* names := Columns.get_names c in
  let* selected := lift (pd.getitem data names) in
  new_data self selected.

End BaseData.

(** ** Invariants of the objects *)

(** What the declarative-model base guarantees of an instance: it holds
    one value per declared field, in declaration order; field names are
    distinct; none is called [data_schema], the name of the property. *)
Definition wf_columns (o : ColumnsObj) : Prop :=
  map fst (fields o) = map fst (model_fields (columns_class o))
  /\ NoDup (map fst (fields o))
  /\ "data_schema" ∉ map fst (fields o).

(** The value the property [data_schema] has for an instance: the cached
    schema when there is one, else what [get_data_schema] computes. *)
Definition schema_of (o : ColumnsObj) : pa.DataFrameSchema :=
  match data_schema_cache o with
  | Some schema => schema
  | None => get_data_schema (columns_class o) (fields o)
  end.

(** The instance as it is once [data_schema] has been read. *)
Definition with_cache (o : ColumnsObj) : ColumnsObj :=
  {| columns_class := columns_class o;
     fields := fields o;
     data_schema_cache := Some (schema_of o) |}.

(** The store once the instance at [c] has had its schema read. *)
Definition cached (c : ref) (o : ColumnsObj) (s : State) : State :=
  {| columns_heap := <[c := with_cache o]> (columns_heap s);
     data_heap := data_heap s;
     events := events s |}.

(** The frame [df[keys]], for labels that all occur in [df]. *)
Definition selected (df : pd.DataFrame) (keys : list string) : pd.DataFrame :=
  {| pd.index := pd.index df;
     pd.items := flat_map (fun k => pd.labelled k df) keys |}.

(** How many values of the column labelled [key] are not missing. *)
Definition non_null_count (df : pd.DataFrame) (key : string) : Z :=
  match pd.column df key with
  | Some s => Z.of_nat (length (filter (fun v => pd.scalar_notna v = true) (pd.values s)))
  | None => 0
  end.

(** ** The objects of the package's tests (tests/test_data.py) *)

Module Tests.

Definition TestColumns : ColumnsClass :=
  {| columns_class_name := "TestColumns";
     model_fields := [("column_a", Some "Name A"); ("column_b", Some "Name B")];
     get_data_schema := fun self =>
       [(default "" (dict_get self "column_a"),
         {| pa.dtype := pd.object; pa.nullable := false |});
        (default "" (dict_get self "column_b"),
         {| pa.dtype := pd.int64; pa.nullable := false |})] |}.

Definition TestData : DataClass :=
  {| __name__ := "TestData"; _column_class := TestColumns |}.

Definition names_a : pd.Series :=
  {| pd.dtype := pd.object; pd.values := [pd.Str "a"; pd.Str "b"; pd.Str "c"] |}.

(** [{"Name A": ["a", "b", "c"], "Name B": [1, 2, 3]}] *)
Definition data : pd.DataFrame :=
  {| pd.index := [0; 1; 2]%Z;
     pd.items := [("Name A", names_a);
                  ("Name B", {| pd.dtype := pd.int64;
                                pd.values := [pd.Int 1; pd.Int 2; pd.Int 3] |})] |}.

(** [{"Name A": ["a", "b", "c"], "Name B": [1, 2, pd.NA]}] *)
Definition data_na : pd.DataFrame :=
  {| pd.index := [0; 1; 2]%Z;
     pd.items := [("Name A", names_a);
                  ("Name B", {| pd.dtype := pd.object;
                                pd.values := [pd.Int 1; pd.Int 2; pd.NA] |})] |}.

(** [data] with a column the schema does not declare. *)
Definition data_extra : pd.DataFrame :=
  {| pd.index := [0; 1; 2]%Z;
     pd.items := [("Extra", names_a);
                  ("Name B", {| pd.dtype := pd.int64;
                                pd.values := [pd.Int 1; pd.Int 2; pd.Int 3] |});
                  ("Name A", names_a)] |}.

(** [data] without its rows. *)
Definition data_no_rows : pd.DataFrame :=
  {| pd.index := [];
     pd.items := [("Name A", {| pd.dtype := pd.object; pd.values := [] |});
                  ("Name B", {| pd.dtype := pd.int64; pd.values := [] |})] |}.

(** [data] without the column "Name B". *)
Definition data_no_b : pd.DataFrame :=
  {| pd.index := [0; 1; 2]%Z; pd.items := [("Name A", names_a)] |}.

(** [TestColumns()] *)
Definition test_columns : ColumnsObj :=
  {| columns_class := TestColumns;
     fields := [("column_a", "Name A"); ("column_b", "Name B")];
     data_schema_cache := None |}.

(** The store before anything is constructed. *)
Definition empty_store : State :=
  {| columns_heap := []; data_heap := []; events := [] |}.

(** A store holding [TestColumns()] at reference 0 and three [TestData]
    instances on it, over [data_na] (as [skip_check=True] admits it),
    [data_no_rows] and [data_extra]. *)
Definition store : State :=
  {| columns_heap := [test_columns];
     data_heap := [ {| __class__ := TestData; columns := 0; _data := data_na |};
                    {| __class__ := TestData; columns := 0; _data := data_no_rows |};
                    {| __class__ := TestData; columns := 0; _data := data_extra |} ];
     events := [] |}.

(** Two transforms that leave a trace when they run: one drops every
    row, the other returns the three-row frame [data] whatever it gets. *)
Definition DropRows : BaseTransform :=
  {| transform_class_name := "DropRows";
     call := fun _ => emit (Trace "DropRows") ;; ret data_no_rows |}.

Definition Refill : BaseTransform :=
  {| transform_class_name := "Refill";
     call := fun _ => emit (Trace "Refill") ;; ret data |}.

End Tests.

(** ** The rest of the package *)

(** A built-in Python exception that passes through the package
    unchanged, carried by [RuntimeError] with its Python rendering. *)
Definition IndexError : exn := RuntimeError "IndexError: tuple index out of range".

(** *** More of the table engine *)

(** [df.rename(columns=mapper)] for a dict: a label that is a key takes
    the mapped value, any other label stays. *)
Definition pd_rename (df : pd.DataFrame) (mapper : dict) : pd.DataFrame :=
  {| pd.index := pd.index df;
     pd.items := map (fun kv => (default (fst kv) (dict_get mapper (fst kv)), snd kv))
                     (pd.items df) |}.

(** The dict comprehension [{name: f(name) for name in names}]. *)
Definition dict_of_names (f : string -> string) (names : list string) : dict :=
  fold_left (fun acc name => dict_set acc name (f name)) names [].

(** *** transforms.py: GroupedPipeline *)

Module GroupedPipeline.

Record t := { group : string; transform : BaseTransform }.

(** The constructor: several transforms are wrapped in a [Pipeline], a
    single one is kept as it is, and [transforms[0]] on an empty tuple
    raises IndexError. *)
Definition __init__ (group : string) (transforms : list BaseTransform) : Result t :=
  if (1 <? length transforms)%nat
  then Ok {| group := group;
             transform := Pipeline.as_transform (Pipeline.__init__ transforms) |}
  else match transforms with
       | t0 :: _ => Ok {| group := group; transform := t0 |}
       | [] => Raise IndexError
       end.

End GroupedPipeline.

(** *** data.py: the other methods of Columns *)

Module ColumnsMore.

(** The property [types]: [self.data_schema.dtypes], the declared dtype
    of every column of the schema. *)
Definition types (self : ref) : M (list (string * pd.DType)) :=
  let* schema := Columns.data_schema self in
  ret (map (fun nc => (fst nc, pa.dtype (snd nc))) schema).

(** [dump_dict], given the serialisation [to_json] of the validation
    engine: the column names and, under the key "data_schema", the
    serialised schema. *)
Definition dump_dict (to_json : pa.DataFrameSchema -> string) (self : ref) : M dict :=
  let* json_dict := Columns.dump_column_names self in
  let* schema := Columns.data_schema self in
  ret (dict_set json_dict "data_schema" (to_json schema)).

(** [list(set(self.get_names()) & set(names))].  The order in which
    Python lists the elements of a set is not specified; here it is that
    of [elements]. *)
Definition intersection (self : ref) (names : list string) : M (list string) :=
  let* own := Columns.get_names self in
  ret (elements ((list_to_set own : gset string) ∩ list_to_set names)).

End ColumnsMore.

(** *** data.py: the other methods of BaseData, and MergeContainer *)

Module BaseDataMore.

Definition prefix_columns (self : ref) (prefix : string) : M ref :=
  let* data := BaseData.data self in
  let new := pd_rename data (dict_of_names (fun name => prefix +:+ name) (pd.columns data)) in
  let* o := deref_data self in
  let* new_columns := Columns.set_prefix (columns o) prefix in
  BaseData.from_dataframe (__class__ o) new (Some new_columns) None None.

End BaseDataMore.

Module MergeContainer.

(** The merged frame with the [Columns] instances of its two sides. *)
Record t := { _data : pd.DataFrame; left : ref; right : ref }.

Definition __init__ (data : pd.DataFrame) (left right : ref) : t :=
  {| _data := data; left := left; right := right |}.

Definition data (self : t) : pd.DataFrame := _data self.
Definition l (self : t) : ref := left self.
Definition r (self : t) : ref := right self.

(** The static method [_prefix_columns], on two [BaseData] objects. *)
Definition _prefix_columns (left right : ref) (prefix : string * string) : M (ref * ref) :=
  let* left := (if (0 <? String.length (fst prefix))%nat
                then BaseDataMore.prefix_columns left (fst prefix)
                else ret left) in
  let* right := (if (0 <? String.length (snd prefix))%nat
                 then BaseDataMore.prefix_columns right (snd prefix)
                 else ret right) in
  ret (left, right).

End MergeContainer.

(** *** Notions used to state the properties of the rest *)

(** Plain sequential composition of transforms, without any test. *)
Fixpoint chain (fs : list BaseTransform) (data : pd.DataFrame) : M pd.DataFrame :=
  match fs with
  | [] => ret data
  | f :: fs' => let* d := call f data in chain fs' d
  end.

(** A transform that never returns an empty frame. *)
Definition never_empty (f : BaseTransform) : Prop :=
  forall d s r s', call f d s = (Ok r, s') -> pd.empty r = false.

(** A transform that neither reads nor writes the state. *)
Definition state_independent (f : BaseTransform) : Prop :=
  exists g : pd.DataFrame -> Result pd.DataFrame, forall d s, call f d s = (g d, s).

(** What the loop logs after a step. *)
Definition step_record (e : Event) : Prop :=
  exists who shape, e = LoggerInfo "{} produces shape {}" (Some who) shape.

(** The state with other events. *)
Definition with_events (s : State) (evs : list Event) : State :=
  {| columns_heap := columns_heap s; data_heap := data_heap s; events := evs |}.

(** The records the pipeline logs: at the start, and after a step. *)
Definition start_record (t : pd.DataFrame) : Event :=
  LoggerInfo "Start shape {}" None (pd.shape t).

Definition produces_record (f : BaseTransform) (r : pd.DataFrame) : Event :=
  LoggerInfo "{} produces shape {}" (Some (transform_class_name f)) (pd.shape r).

(** The state after a logging statement of a pipeline of verbosity [v]:
    the record is appended when [v] is 1, nothing happens otherwise. *)
Definition logged (v : Z) (e : Event) (s : State) : State :=
  if (v =? 1)%Z then with_events s (events s ++ [e]) else s.

(** The steps [pre], applied one after the other from the frame [t] in
    the state [s] as a pipeline of verbosity [v] applies them, each
    return a frame that is not empty; [d] is the last frame and [s1] the
    state then. *)
Fixpoint steps_nonempty (v : Z) (pre : list BaseTransform) (t : pd.DataFrame) (s : State)
    (d : pd.DataFrame) (s1 : State) : Prop :=
  match pre with
  | [] => d = t /\ s1 = s
  | f :: pre' =>
      exists r s', call f t s = (Ok r, s') /\ pd.empty r = false
                   /\ steps_nonempty v pre' r (logged v (produces_record f r) s') d s1
  end.

(** How many values of a column are not missing. *)
Definition non_null_in (series : pd.Series) : Z :=
  Z.of_nat (length (filter (fun v => pd.scalar_notna v = true) (pd.values series))).

(** A class whose fields are distinct and avoid the name of the property. *)
Definition wf_class (cls : ColumnsClass) : Prop :=
  NoDup (map fst (model_fields cls)) /\ "data_schema" ∉ map fst (model_fields cls).

(** The field values after [set_prefix]. *)
Definition prefixed (prefix : string) (d : dict) : dict :=
  map (fun kv => (fst kv, prefix +:+ snd kv)) d.

(** A frame with every label prefixed. *)
Definition relabelled (prefix : string) (df : pd.DataFrame) : pd.DataFrame :=
  {| pd.index := pd.index df;
     pd.items := map (fun kv => (prefix +:+ fst kv, snd kv)) (pd.items df) |}.

(** *** More objects for examples *)

Module MoreTests.

(** A transform that always raises. *)
Definition Failing : BaseTransform :=
  {| transform_class_name := "Failing";
     call := fun _ => raise (RuntimeError "failed") |}.

(** A column class with a field that has no default. *)
Definition Keyed : ColumnsClass :=
  {| columns_class_name := "Keyed";
     model_fields := [("column_a", Some "Name A"); ("key", None); ("other", None)];
     get_data_schema := fun _ => [] |}.

(** A frame with two columns under the same label, and a store with a
    [TestData] over it. *)
Definition twins : pd.DataFrame :=
  {| pd.index := [0; 1; 2]%Z;
     pd.items := [("Name B", {| pd.dtype := pd.object;
                                pd.values := [pd.Int 1; pd.Int 2; pd.NA] |});
                  ("Name B", {| pd.dtype := pd.int64;
                                pd.values := [pd.Int 1; pd.Int 2; pd.Int 3] |})] |}.

Definition store : State :=
  {| columns_heap := [Tests.test_columns];
     data_heap := [{| __class__ := Tests.TestData; columns := 0; _data := twins |}];
     events := [] |}.

End MoreTests.

(** * Properties *)

(** ** Reasoning in the monad *)

Lemma bind_ok {A B} (m : M A) (k : A -> M B) (s s' : State) (a : A) :
  m s = (Ok a, s') -> bind m k s = k a s'.
Proof. intros E. unfold bind. now rewrite E. Qed.

Lemma bind_inv_ok {A B} (m : M A) (k : A -> M B) (s s' : State) (b : B) :
  bind m k s = (Ok b, s') ->
  exists a s1, m s = (Ok a, s1) /\ k a s1 = (Ok b, s').
Proof.
  unfold bind. destruct (m s) as [[a | e] s1]; intros E.
  - eauto.
  - discriminate.
Qed.

(** ** Pipeline *)

Section PipelineFacts.

Variable self : Pipeline.t.

(** The logging steps of the verbose mode always return. *)
Lemma log_step_ok (who : option string) (fmt : string) (shape : nat * nat) (s : State) :
  exists s', (if (Pipeline.verbose self =? 1)%Z
              then emit (LoggerInfo fmt who shape) else ret tt) s = (Ok tt, s').
Proof. destruct (Pipeline.verbose self =? 1)%Z; cbn; eauto. Qed.

(** The loop hands back the receiver it was given. *)
Lemma loop_receiver (rest : list BaseTransform) :
  forall data s r s',
    Pipeline.loop self rest data s = (Ok r, s') -> fst r = self.
Proof.
  induction rest as [| func rest IH]; intros data s r s' E; cbn in E.
  - now inversion E.
  - apply bind_inv_ok in E as (d & s1 & _ & E).
    apply bind_inv_ok in E as ([] & s2 & _ & E).
    destruct (pd.empty d).
    + now inversion E.
    + eauto.
Qed.

(** Once the loop has stopped on an empty frame, transforms further
    down the sequence change nothing: neither the result nor the state. *)
Lemma loop_stops_on_empty (pre post : list BaseTransform) :
  forall data s r s',
    pre <> [] ->
    Pipeline.loop self pre data s = (Ok r, s') ->
    pd.empty (snd r) = true ->
    Pipeline.loop self (pre ++ post) data s = (Ok r, s').
Proof.
  induction pre as [| func pre IH]; intros data s r s' Hne E Hempty; [done |].
  cbn in *. unfold bind in *.
  destruct (call func data s) as [[d | e] s1]; [| done].
  destruct (log_step_ok (Some (transform_class_name func))
              "{} produces shape {}" (pd.shape d) s1) as [s2 Hlog].
  rewrite Hlog in *.
  destruct (pd.empty d) eqn:Hd; [done |].
  destruct pre as [| g pre].
  - cbn in E. inversion E; subst. cbn in Hempty. congruence.
  - now apply IH.
Qed.

End PipelineFacts.

(** The receiver only matters to the loop through [verbose]. *)
Lemma loop_same_verbose (p q : Pipeline.t) (rest : list BaseTransform) :
  Pipeline.verbose p = Pipeline.verbose q ->
  forall data s,
    Pipeline.loop q rest data s =
    (match fst (Pipeline.loop p rest data s) with
     | Ok r => Ok (q, snd r)
     | Raise e => Raise e
     end, snd (Pipeline.loop p rest data s)).
Proof.
  intros Hv. induction rest as [| func rest IH]; intros data s; cbn; [done |].
  unfold bind. rewrite Hv.
  destruct (call func data s) as [[d | e] s1]; [| done].
  destruct (log_step_ok q (Some (transform_class_name func))
              "{} produces shape {}" (pd.shape d) s1) as [s2 Hlog].
  rewrite Hlog.
  destruct (pd.empty d); [done |]. apply IH.
Qed.

Lemma call_of_run (p : Pipeline.t) (data : pd.DataFrame) (s : State) :
  Pipeline.__call__ p data s =
  (match fst (Pipeline.run p data s) with
   | Ok r => Ok (snd r)
   | Raise e => Raise e
   end, snd (Pipeline.run p data s)).
Proof.
  unfold Pipeline.__call__, bind. now destruct (Pipeline.run p data s) as [[r | e] s1].
Qed.

(** With a prefix [pre] of the transforms that already ends on an empty
    frame, the whole pipeline does exactly what the prefix does. *)
Lemma call_stops_on_empty (verbose : Z) (pre post : list BaseTransform)
    (data r : pd.DataFrame) (s s' : State) :
  pre <> [] ->
  Pipeline.__call__ {| Pipeline.transforms := pre; Pipeline.verbose := verbose |} data s
    = (Ok r, s') ->
  pd.empty r = true ->
  Pipeline.__call__ {| Pipeline.transforms := pre ++ post; Pipeline.verbose := verbose |} data s
    = (Ok r, s').
Proof.
  set (p := {| Pipeline.transforms := pre |}).
  set (q := {| Pipeline.transforms := pre ++ post |}).
  intros Hne E Hempty. rewrite call_of_run in *.
  unfold Pipeline.run, bind in *.
  destruct (log_step_ok p None "Start shape {}" (pd.shape data) s) as [s1 Hlog].
  change (Pipeline.verbose q) with (Pipeline.verbose p). rewrite Hlog in *.
  cbn [Pipeline.transforms p q] in *.
  destruct (Pipeline.loop p pre data s1) as [[[p' d] | e] s2] eqn:Hloop; [| done].
  cbn in E. inversion E; subst d s2; clear E.
  assert (p' = p) as -> by apply (loop_receiver _ _ _ _ _ _ Hloop).
  apply (loop_stops_on_empty p pre post) in Hloop; [| done | done].
  rewrite (loop_same_verbose p q) by done. now rewrite Hloop.
Qed.

Lemma log_step_logged (v : Z) (e : Event) (s : State) :
  (if (v =? 1)%Z then emit e else ret tt) s = (Ok tt, logged v e s).
Proof. unfold logged. now destruct (v =? 1)%Z. Qed.

(** The loop walks through steps whose results are not empty and stops
    after the first step whose result is empty. *)
Lemma loop_reaches_empty (p : Pipeline.t) (pre : list BaseTransform) (f : BaseTransform)
    (post : list BaseTransform) :
  forall t s d s1 r s',
    steps_nonempty (Pipeline.verbose p) pre t s d s1 ->
    call f d s1 = (Ok r, s') ->
    pd.empty r = true ->
    Pipeline.loop p (pre ++ f :: post) t s
    = (Ok (p, r), logged (Pipeline.verbose p) (produces_record f r) s').
Proof.
  induction pre as [| g pre IH]; intros t s d s1 r s' Hsteps Hf Hempty.
  - destruct Hsteps as [-> ->]. cbn. unfold bind. rewrite Hf.
    unfold produces_record. rewrite log_step_logged. now rewrite Hempty.
  - destruct Hsteps as (r0 & s0 & Hg & Hr0 & Hsteps). cbn. unfold bind. rewrite Hg.
    fold (produces_record g r0). rewrite log_step_logged, Hr0.
    now apply (IH _ _ d s1).
Qed.

Lemma call_reaches_empty (v : Z) (pre : list BaseTransform) (f : BaseTransform)
    (post : list BaseTransform) (t d r : pd.DataFrame) (s s1 s' : State) :
  steps_nonempty v pre t (logged v (start_record t) s) d s1 ->
  call f d s1 = (Ok r, s') ->
  pd.empty r = true ->
  Pipeline.__call__ {| Pipeline.transforms := pre ++ f :: post; Pipeline.verbose := v |} t s
  = (Ok r, logged v (produces_record f r) s').
Proof.
  intros Hsteps Hf Hempty. rewrite call_of_run. unfold Pipeline.run, bind. cbn.
  fold (start_record t). rewrite log_step_logged.
  now rewrite (loop_reaches_empty {| Pipeline.transforms := pre ++ f :: post;
                                     Pipeline.verbose := v |} pre f post _ _ d s1 r s').
Qed.

(** C2: when transform [A] applied to [t] returns a table [r] without
    rows, [Pipeline(A, B)] applied to [t] returns exactly [r], in exactly
    the state [A] left: [B], whatever it would do, is not applied.  In
    general, for a pipeline of any verbosity: when the steps before [f]
    each return a frame that is not empty and [f], applied to the last of
    them, returns an empty frame [r1], the pipeline returns [r1] in the
    state [f] left (after the log record of that step, if logging is on),
    whatever the steps after [f] are.  And once a non-empty prefix of the
    transforms has ended on an empty frame, the pipeline returns that
    frame and runs none of the transforms after it. *)
Theorem C2_pipeline_short_circuit (A B : BaseTransform) (t r : pd.DataFrame) (s s' : State) :
  call A t s = (Ok r, s') ->
  length (pd.index r) = 0 ->
  Pipeline.__call__ (Pipeline.__init__ [A; B]) t s = (Ok r, s')
  /\ (forall (verbose : Z) (pre : list BaseTransform) (f : BaseTransform)
             (post : list BaseTransform) (t1 d r1 : pd.DataFrame) (s1 s2 s3 : State),
        steps_nonempty verbose pre t1 (logged verbose (start_record t1) s1) d s2 ->
        call f d s2 = (Ok r1, s3) ->
        pd.empty r1 = true ->
        Pipeline.__call__ {| Pipeline.transforms := pre ++ f :: post;
                             Pipeline.verbose := verbose |} t1 s1
          = (Ok r1, logged verbose (produces_record f r1) s3))
  /\ (forall (verbose : Z) (pre post : list BaseTransform) (t1 r1 : pd.DataFrame) (s1 s1' : State),
        pre <> [] ->
        Pipeline.__call__ {| Pipeline.transforms := pre; Pipeline.verbose := verbose |} t1 s1
          = (Ok r1, s1') ->
        pd.empty r1 = true ->
        Pipeline.__call__ {| Pipeline.transforms := pre ++ post; Pipeline.verbose := verbose |} t1 s1
          = (Ok r1, s1')).
Proof.
  intros HA Hrows. split; [| split].
  - unfold Pipeline.__call__, Pipeline.run, Pipeline.__init__. cbn.
    unfold bind at 1 2 3. cbn. unfold bind. rewrite HA. cbn.
    unfold pd.empty. rewrite Hrows. reflexivity.
  - intros verbose pre f post t1 d r1 s1 s2 s3 Hsteps Hf Hempty.
    exact (call_reaches_empty verbose pre f post t1 d r1 s1 s2 s3 Hsteps Hf Hempty).
  - intros. now apply call_stops_on_empty.
Qed.

(** The short-circuit scenario of the specification: [DropRows] empties
    the frame, so [Refill] never runs and leaves no trace.  And with
    [Refill] first, whose frame has rows, the pipeline goes on to
    [DropRows] and stops there: the last [Refill] leaves no trace. *)
Lemma C2_pipeline_short_circuit_witness :
  Pipeline.__call__ (Pipeline.__init__ [Tests.DropRows; Tests.Refill]) Tests.data Tests.store
  = (Ok Tests.data_no_rows,
     {| columns_heap := columns_heap Tests.store;
        data_heap := data_heap Tests.store;
        events := [Trace "DropRows"] |})
  /\ Pipeline.__call__ (Pipeline.__init__ ([Tests.Refill] ++ Tests.DropRows :: [Tests.Refill]))
       Tests.data_no_rows Tests.empty_store
     = (Ok Tests.data_no_rows,
        {| columns_heap := []; data_heap := [];
           events := [Trace "Refill"; Trace "DropRows"] |}).
Proof.
  destruct (C2_pipeline_short_circuit Tests.DropRows Tests.Refill Tests.data
              Tests.data_no_rows Tests.store
              {| columns_heap := columns_heap Tests.store;
                 data_heap := data_heap Tests.store;
                 events := [Trace "DropRows"] |} eq_refl eq_refl) as (Hab & Hsteps & _).
  split; [exact Hab |].
  apply (Hsteps 0%Z [Tests.Refill] Tests.DropRows [Tests.Refill] Tests.data_no_rows Tests.data
           Tests.data_no_rows Tests.empty_store
           {| columns_heap := []; data_heap := []; events := [Trace "Refill"] |}).
  - cbn. eexists _, _. split; [reflexivity |]. split; [reflexivity |]. split; reflexivity.
  - reflexivity.
  - reflexivity.
Defined.

(** A pipeline with a first transform starts by calling it, whatever
    the input; only then does it test for emptiness. *)
Lemma call_cons (f : BaseTransform) (rest : list BaseTransform) (t : pd.DataFrame) (s : State) :
  Pipeline.__call__ (Pipeline.__init__ (f :: rest)) t s
  = (let* d := call f t in
     if pd.empty d then ret d else Pipeline.__call__ (Pipeline.__init__ rest) d) s.
Proof.
  rewrite call_of_run. unfold Pipeline.run, Pipeline.__init__. cbn.
  unfold bind. destruct (call f t s) as [[d | e] s1]; [| done]. cbn.
  destruct (pd.empty d); [done |].
  rewrite call_of_run. unfold Pipeline.run, bind. cbn.
  rewrite (loop_same_verbose {| Pipeline.transforms := rest; Pipeline.verbose := 0 |}
             {| Pipeline.transforms := f :: rest; Pipeline.verbose := 0 |}) by done.
  now destruct (Pipeline.loop _ rest d s1) as [[r | e] s2].
Qed.

(** C4 as stated does not hold.  The frame [data_no_rows] has no rows;
    the pipeline of the one transform [Refill] applied to it runs
    [Refill], which leaves its trace, and returns the three-row frame of
    [Refill], not its argument. *)
Lemma C4_counterexample :
  length (pd.index Tests.data_no_rows) = 0
  /\ Pipeline.__call__ (Pipeline.__init__ [Tests.Refill]) Tests.data_no_rows Tests.empty_store
     = (Ok Tests.data,
        {| columns_heap := []; data_heap := []; events := [Trace "Refill"] |})
  /\ Tests.data <> Tests.data_no_rows
  /\ ~ (forall (p : Pipeline.t) (t : pd.DataFrame) (s : State),
          length (pd.index t) = 0 -> Pipeline.__call__ p t s = (Ok t, s)).
Proof.
  split; [reflexivity |]. split; [reflexivity |]. split; [discriminate |].
  intros H.
  specialize (H (Pipeline.__init__ [Tests.Refill]) Tests.data_no_rows Tests.empty_store eq_refl).
  vm_compute in H. discriminate.
Qed.

(** C4, amended: on a table [t] without rows, a pipeline with no steps
    returns [t] itself; a pipeline with steps applies its first step to
    [t], for emptiness is tested after a step and never on the input.
    When that step returns an empty frame the pipeline returns that
    frame, in the state the step left, and none of the remaining steps
    is applied; when it raises, the pipeline raises.  With logging off,
    the pipeline is its first step followed, unless the result is empty,
    by the pipeline of the remaining steps. *)
Theorem C4_pipeline_on_empty_input (v : Z) (f : BaseTransform) (rest : list BaseTransform)
    (t : pd.DataFrame) (s : State) :
  length (pd.index t) = 0 ->
  Pipeline.__call__ {| Pipeline.transforms := []; Pipeline.verbose := v |} t s
    = (Ok t, logged v (start_record t) s)
  /\ (forall r s',
        call f t (logged v (start_record t) s) = (Ok r, s') ->
        pd.empty r = true ->
        Pipeline.__call__ {| Pipeline.transforms := f :: rest; Pipeline.verbose := v |} t s
        = (Ok r, logged v (produces_record f r) s'))
  /\ (forall e s',
        call f t (logged v (start_record t) s) = (Raise e, s') ->
        Pipeline.__call__ {| Pipeline.transforms := f :: rest; Pipeline.verbose := v |} t s
        = (Raise e, s'))
  /\ Pipeline.__call__ (Pipeline.__init__ (f :: rest)) t s
     = (let* d := call f t in
        if pd.empty d then ret d else Pipeline.__call__ (Pipeline.__init__ rest) d) s.
Proof.
  intros _. split; [| split; [| split]].
  - rewrite call_of_run. unfold Pipeline.run, bind. cbn.
    fold (start_record t). now rewrite log_step_logged.
  - intros r s' Hf Hempty.
    now apply (call_reaches_empty v [] f rest t t r s (logged v (start_record t) s) s').
  - intros e s' Hf. rewrite call_of_run. unfold Pipeline.run, bind. cbn.
    fold (start_record t). rewrite log_step_logged. cbv beta iota. unfold bind.
    now rewrite Hf.
  - apply call_cons.
Qed.

(** On the frame without rows: [DropRows] runs, and [Refill] after it
    does not. *)
Lemma C4_pipeline_on_empty_input_witness :
  Pipeline.__call__ {| Pipeline.transforms := [Tests.DropRows; Tests.Refill];
                       Pipeline.verbose := 0 |} Tests.data_no_rows Tests.empty_store
  = (Ok Tests.data_no_rows,
     {| columns_heap := []; data_heap := []; events := [Trace "DropRows"] |}).
Proof.
  destruct (C4_pipeline_on_empty_input 0 Tests.DropRows [Tests.Refill]
              Tests.data_no_rows Tests.empty_store eq_refl) as (_ & H & _).
  apply (H Tests.data_no_rows
           {| columns_heap := []; data_heap := []; events := [Trace "DropRows"] |});
    reflexivity.
Defined.

(** C10: a pipeline built from no transforms returns its argument and
    leaves the state as it was (with [verbose] set it still returns its
    argument); and whenever an application of a pipeline returns, the
    receiver, its sequence of transforms included, is what it was before. *)
Theorem C10_empty_pipeline_is_identity (p : Pipeline.t) (t : pd.DataFrame) (s : State) :
  Pipeline.__call__ (Pipeline.__init__ []) t s = (Ok t, s)
  /\ (forall verbose,
        fst (Pipeline.__call__ {| Pipeline.transforms := []; Pipeline.verbose := verbose |} t s)
        = Ok t)
  /\ (forall r s', Pipeline.run p t s = (Ok r, s') ->
        fst r = p /\ Pipeline.transforms (fst r) = Pipeline.transforms p).
Proof.
  split; [reflexivity |]. split.
  - intros verbose. unfold Pipeline.__call__, Pipeline.run, bind. cbn.
    now destruct (verbose =? 1)%Z.
  - intros r s' E. unfold Pipeline.run in E.
    apply bind_inv_ok in E as ([] & s1 & _ & E).
    apply loop_receiver in E. now rewrite E.
Qed.

Lemma C10_empty_pipeline_is_identity_witness :
  exists r s',
    Pipeline.run (Pipeline.__init__ [Tests.DropRows; Tests.Refill]) Tests.data Tests.store = (Ok r, s')
    /\ Pipeline.transforms (fst r) = [Tests.DropRows; Tests.Refill].
Proof.
  eexists _, _. split; [reflexivity |].
  eapply (C10_empty_pipeline_is_identity
            (Pipeline.__init__ [Tests.DropRows; Tests.Refill]) Tests.data Tests.store).
  reflexivity.
Defined.

(** ** Dictionaries and the declarative-model base *)

Lemma dict_get_cons (k k' v' : string) (d : dict) :
  dict_get ((k', v') :: d) k = if decide (k' = k) then Some v' else dict_get d k.
Proof.
  unfold dict_get. cbn. unfold bool_decide. now destruct (decide_rel eq k' k).
Qed.

Lemma dict_get_elem_of (d : dict) (k v : string) :
  NoDup (map fst d) -> (k, v) ∈ d -> dict_get d k = Some v.
Proof.
  induction d as [| [k' v'] d IH]; intros Hnd Hin.
  - now apply elem_of_nil in Hin.
  - rewrite dict_get_cons. cbn in Hnd. apply NoDup_cons in Hnd as [Hk' Hnd].
    apply elem_of_cons in Hin as [Heq | Hin].
    + inversion Heq; subst. now rewrite decide_True.
    + destruct (decide (k' = k)) as [-> |]; [| auto].
      exfalso. apply Hk'. apply (list_elem_of_fmap_2 fst) in Hin. exact Hin.
Qed.

Lemma dict_set_fresh (d : dict) (k v : string) :
  k ∉ map fst d -> dict_set d k v = d ++ [(k, v)].
Proof.
  induction d as [| [k' v'] d IH]; intros Hk; [done |].
  cbn in *. rewrite not_elem_of_cons in Hk. destruct Hk as [Hne Hk].
  rewrite decide_False by congruence. now rewrite IH.
Qed.

(** On a dict, whose keys are distinct, the comprehension is a map over
    the items: same keys, same order. *)
Lemma dict_comprehension_map (f : string -> string -> string) (d : dict) :
  NoDup (map fst d) ->
  Columns.dict_comprehension f d = map (fun kv => (fst kv, f (fst kv) (snd kv))) d.
Proof.
  unfold Columns.dict_comprehension.
  enough (forall acc, NoDup (map fst (acc ++ d)) ->
            fold_left (fun acc kv => dict_set acc (fst kv) (f (fst kv) (snd kv))) d acc
            = acc ++ map (fun kv => (fst kv, f (fst kv) (snd kv))) d) as H
    by (intros Hnd; now apply (H [])).
  induction d as [| [k v] d IH]; intros acc Hnd; cbn.
  - now rewrite app_nil_r.
  - rewrite dict_set_fresh.
    + rewrite IH; [now rewrite <- app_assoc |].
      rewrite <- app_assoc. rewrite !map_app in *. exact Hnd.
    + rewrite map_app in Hnd. apply NoDup_app in Hnd as (_ & Hdisj & _).
      intros Hin. apply (Hdisj k Hin). cbn. apply elem_of_cons. now left.
Qed.

(** Validation against the declared fields takes every field from an
    input mapping that has them all. *)
Lemma validate_fields_from (declared : list (string * option string)) (obj vs : dict) :
  map fst vs = map fst declared ->
  (forall kv, kv ∈ vs -> dict_get obj (fst kv) = Some (snd kv)) ->
  Columns.validate_fields declared obj = Ok vs.
Proof.
  revert vs. induction declared as [| [name default] declared IH]; intros vs Hkeys Hget.
  - now destruct vs.
  - destruct vs as [| [k v] vs]; [done |]. cbn in Hkeys. inversion Hkeys; subst k.
    assert (dict_get obj name = Some v) as Hv
      by (apply (Hget (name, v)); apply elem_of_cons; now left).
    cbn. rewrite Hv.
    rewrite (IH vs); [done | done |].
    intros kv Hin. apply Hget. apply elem_of_cons. now right.
Qed.

Lemma model_dump_fields (o : ColumnsObj) :
  "data_schema" ∉ map fst (fields o) ->
  Columns.model_dump ["data_schema"] o = fields o.
Proof.
  unfold Columns.model_dump. induction (fields o) as [| [k v] d IH]; intros Hk; [done |].
  cbn in Hk. rewrite not_elem_of_cons in Hk. destruct Hk as [Hne Hk].
  rewrite filter_cons_True.
  - now rewrite IH.
  - cbn. rewrite list_elem_of_singleton. congruence.
Qed.

(** An instance made by [model_validate] satisfies the invariant, when
    the class declares distinct fields, none called [data_schema]. *)
Lemma validate_fields_keys (declared : list (string * option string)) (obj vs : dict) :
  Columns.validate_fields declared obj = Ok vs -> map fst vs = map fst declared.
Proof.
  revert vs. induction declared as [| [name default] declared IH]; intros vs E; cbn in E.
  - now inversion E.
  - destruct (match dict_get obj name with Some v => Some v | None => default end); [| done].
    destruct (Columns.validate_fields declared obj) as [vs' | e]; [| done].
    inversion E; subst. cbn. now rewrite (IH vs').
Qed.

Lemma model_validate_wf (cls : ColumnsClass) (obj : dict) (s s' : State) (r : ref) :
  NoDup (map fst (model_fields cls)) ->
  "data_schema" ∉ map fst (model_fields cls) ->
  Columns.model_validate cls obj s = (Ok r, s') ->
  exists o, columns_heap s' !! r = Some o /\ wf_columns o /\ columns_class o = cls.
Proof.
  intros Hnd Hds E. unfold Columns.model_validate in E.
  apply bind_inv_ok in E as (vs & s1 & Hval & E).
  unfold lift in Hval. inversion Hval; subst s1; clear Hval.
  unfold alloc_columns in E. inversion E; subst; clear E. cbn.
  eexists. split.
  - rewrite lookup_app_r by done. now rewrite Nat.sub_diag.
  - apply validate_fields_keys in H0. unfold wf_columns. cbn. rewrite H0. done.
Qed.

(** ** Columns *)

Section ColumnsFacts.

Variables (s : State) (self : ref) (o : ColumnsObj).
Hypothesis Hself : columns_heap s !! self = Some o.
Hypothesis Hwf : wf_columns o.

Lemma deref_columns_ok : deref_columns self s = (Ok o, s).
Proof. unfold deref_columns. now rewrite Hself. Qed.

Lemma dump_column_names_ok : Columns.dump_column_names self s = (Ok (fields o), s).
Proof.
  unfold Columns.dump_column_names. rewrite (bind_ok _ _ _ _ _ deref_columns_ok).
  unfold ret. rewrite model_dump_fields; [done | apply Hwf].
Qed.

Lemma get_names_ok : Columns.get_names self s = (Ok (map snd (fields o)), s).
Proof.
  unfold Columns.get_names. now rewrite (bind_ok _ _ _ _ _ dump_column_names_ok).
Qed.

Lemma columns_ok : Columns.columns self s = (Ok (map fst (fields o)), s).
Proof.
  unfold Columns.columns. now rewrite (bind_ok _ _ _ _ _ dump_column_names_ok).
Qed.

(** [model_validate] on a mapping that has the keys of the receiver, in
    its order, makes a fresh instance holding exactly that mapping. *)
Lemma model_validate_same_keys (vs : list (string * string)) :
  map fst vs = map fst (fields o) ->
  Columns.model_validate (columns_class o) vs s
  = (Ok (length (columns_heap s)),
     {| columns_heap := columns_heap s ++
                        [{| columns_class := columns_class o;
                            fields := vs;
                            data_schema_cache := None |}];
        data_heap := data_heap s;
        events := events s |}).
Proof.
  intros Hkeys. destruct Hwf as (Hdecl & Hnd & _).
  unfold Columns.model_validate, bind, lift.
  rewrite (validate_fields_from _ vs vs); [done | congruence |].
  intros [k v] Hin. apply dict_get_elem_of; [| done]. now rewrite Hkeys.
Qed.

End ColumnsFacts.

(** C3: [set_prefix] returns a reference to a new instance of the
    receiver's class; its field names are the receiver's, in the same
    order, and each physical name is the prefix followed by the
    receiver's physical name for that field.  The receiver, like every
    object already in the store, is left as it was. *)
Theorem C3_set_prefix (s : State) (self : ref) (o : ColumnsObj) (prefix : string) :
  columns_heap s !! self = Some o ->
  wf_columns o ->
  exists (new : ref) (o' : ColumnsObj) (s' : State),
    Columns.set_prefix self prefix s = (Ok new, s')
    /\ new <> self
    /\ columns_heap s' !! new = Some o'
    /\ columns_class o' = columns_class o
    /\ fields o' = map (fun kv => (fst kv, prefix +:+ snd kv)) (fields o)
    /\ Columns.columns new s' = (Ok (map fst (fields o)), s')
    /\ Columns.get_names new s'
       = (Ok (map (fun name => prefix +:+ name) (map snd (fields o))), s')
    /\ Columns.columns self s = (Ok (map fst (fields o)), s)
    /\ Columns.get_names self s = (Ok (map snd (fields o)), s)
    /\ columns_heap s' !! self = Some o
    /\ (forall r x, columns_heap s !! r = Some x -> columns_heap s' !! r = Some x)
    /\ data_heap s' = data_heap s
    /\ events s' = events s.
Proof.
  intros Hself Hwf.
  set (vs := map (fun kv => (fst kv, prefix +:+ snd kv)) (fields o)).
  assert (map fst vs = map fst (fields o)) as Hkeys
    by (unfold vs; rewrite map_map; now apply map_ext).
  assert (Columns.set_prefix self prefix s
          = Columns.model_validate (columns_class o) vs s) as Hrun.
  { unfold Columns.set_prefix.
    rewrite (bind_ok _ _ _ _ _ (dump_column_names_ok s self o Hself Hwf)).
    rewrite (bind_ok _ _ _ _ _ (deref_columns_ok s self o Hself)).
    rewrite dict_comprehension_map by apply Hwf. reflexivity. }
  rewrite (model_validate_same_keys s o Hwf vs Hkeys) in Hrun.
  set (o' := {| columns_class := columns_class o; fields := vs;
                data_schema_cache := None |}) in *.
  set (s' := {| columns_heap := columns_heap s ++ [o'] |}) in *.
  assert (columns_heap s' !! length (columns_heap s) = Some o') as Hnew
    by (cbn; rewrite lookup_app_r by done; now rewrite Nat.sub_diag).
  assert (wf_columns o') as Hwf'.
  { destruct Hwf as (Hdecl & Hnd & Hds). unfold wf_columns. cbn.
    rewrite Hkeys. done. }
  exists (length (columns_heap s)), o', s'.
  split; [exact Hrun |]. split.
  { apply lookup_lt_Some in Hself. lia. }
  split; [exact Hnew |]. split; [done |]. split; [done |]. split.
  { rewrite (columns_ok s' _ o' Hnew Hwf'). cbn. now rewrite Hkeys. }
  split.
  { rewrite (get_names_ok s' _ o' Hnew Hwf'). cbn. unfold vs.
    now rewrite !map_map. }
  split; [now apply columns_ok |]. split; [now apply get_names_ok |].
  split; [cbn; now apply lookup_app_l_Some |].
  split; [intros r x Hr; cbn; now apply lookup_app_l_Some |].
  done.
Qed.

(** [TestColumns().set_prefix("left_")] *)
Lemma C3_set_prefix_witness :
  exists new s',
    Columns.set_prefix 0 "left_" Tests.store = (Ok new, s')
    /\ Columns.columns new s' = (Ok ["column_a"; "column_b"], s')
    /\ Columns.get_names new s' = (Ok ["left_Name A"; "left_Name B"], s')
    /\ columns_heap s' !! 0 = Some Tests.test_columns.
Proof.
  destruct (C3_set_prefix Tests.store 0 Tests.test_columns "left_")
    as (new & o' & s' & Hrun & _ & _ & _ & _ & Hkeys & Hnames & _ & _ & Hself & _).
  - reflexivity.
  - unfold wf_columns. cbn. split; [done |]. split.
    + repeat constructor; rewrite ?elem_of_cons, ?elem_of_nil; intuition discriminate.
    + rewrite !elem_of_cons, elem_of_nil. intuition discriminate.
  - exists new, s'. auto.
Defined.

(** C8: building an instance, by [model_validate], from what
    [dump_column_names] returns for an instance [C] gives a new instance
    with the field values of [C]: [get_names] returns for it what it
    returns for [C]. *)
Theorem C8_dump_then_model_validate (s : State) (self : ref) (o : ColumnsObj) :
  columns_heap s !! self = Some o ->
  wf_columns o ->
  exists (new : ref) (o' : ColumnsObj) (s' : State),
    (let* d := Columns.dump_column_names self in
     Columns.model_validate (columns_class o) d) s = (Ok new, s')
    /\ columns_heap s' !! new = Some o'
    /\ fields o' = fields o
    /\ Columns.get_names self s = (Ok (map snd (fields o)), s)
    /\ Columns.get_names new s' = (Ok (map snd (fields o)), s').
Proof.
  intros Hself Hwf.
  rewrite (bind_ok _ _ _ _ _ (dump_column_names_ok s self o Hself Hwf)).
  rewrite (model_validate_same_keys s o Hwf (fields o) eq_refl).
  set (o' := {| columns_class := columns_class o; fields := fields o;
                data_schema_cache := None |}).
  set (s' := {| columns_heap := columns_heap s ++ [o'] |}).
  assert (columns_heap s' !! length (columns_heap s) = Some o') as Hnew
    by (cbn; rewrite lookup_app_r by done; now rewrite Nat.sub_diag).
  exists (length (columns_heap s)), o', s'.
  split; [done |]. split; [done |]. split; [done |].
  split; [now apply get_names_ok |].
  now rewrite (get_names_ok s' _ o' Hnew Hwf).
Qed.

Lemma C8_dump_then_model_validate_witness :
  exists new s',
    (let* d := Columns.dump_column_names 0 in
     Columns.model_validate Tests.TestColumns d) Tests.store = (Ok new, s')
    /\ Columns.get_names new s' = (Ok ["Name A"; "Name B"], s').
Proof.
  destruct (C8_dump_then_model_validate Tests.store 0 Tests.test_columns)
    as (new & o' & s' & Hrun & _ & _ & _ & Hnames).
  - reflexivity.
  - unfold wf_columns. cbn. split; [done |]. split.
    + repeat constructor; rewrite ?elem_of_cons, ?elem_of_nil; intuition discriminate.
    + rewrite !elem_of_cons, elem_of_nil. intuition discriminate.
  - exists new, s'. auto.
Defined.

(** ** The validation engine *)

Lemma labelled_nil (df : pd.DataFrame) (name : string) :
  pd.labelled name df = [] <-> name ∉ pd.columns df.
Proof.
  unfold pd.labelled, pd.columns. split.
  - intros Hnil Hin. apply list_elem_of_fmap in Hin as ([k s] & -> & Hin).
    cbn in Hnil.
    assert ((k, s) ∈ filter (fun kv => fst kv = k) (pd.items df)) as Hf
      by (apply list_elem_of_filter; auto).
    rewrite Hnil in Hf. now apply elem_of_nil in Hf.
  - intros Hout. apply elem_of_nil_inv. intros [k s] Hin.
    apply list_elem_of_filter in Hin as [Hk Hin]. cbn in Hk. subst k.
    apply Hout. now apply (list_elem_of_fmap_2 fst) in Hin.
Qed.

Lemma series_ok_false (c : pa.Column) (s : pd.Series) :
  pa.series_ok c s = false <->
  pd.dtype s <> pa.dtype c \/ (pa.nullable c = false /\ pd.NA ∈ pd.values s).
Proof.
  unfold pa.series_ok. rewrite andb_false_iff, orb_false_iff. split.
  - intros [Hd | [Hn Hna]].
    + left. intros E. rewrite E in Hd. now destruct (pa.dtype c).
    + right. split; [done |].
      induction (pd.values s) as [| v vs IH]; [done |]. cbn in Hna.
      apply andb_false_iff in Hna as [Hv | Hvs].
      * destruct v; try done. apply elem_of_cons. now left.
      * apply elem_of_cons. right. auto.
  - intros [Hd | [Hn Hna]].
    + left. destruct (pd.dtype s), (pa.dtype c); done.
    + right. split; [done |].
      induction (pd.values s) as [| v vs IH]; [now apply elem_of_nil in Hna |].
      cbn. apply andb_false_iff. apply elem_of_cons in Hna as [<- | Hna]; auto.
Qed.

Lemma column_ok_false (df : pd.DataFrame) (name : string) (c : pa.Column) :
  pa.column_ok df (name, c) = false <->
  name ∉ pd.columns df
  \/ exists s, (name, s) ∈ pd.items df /\ pa.series_ok c s = false.
Proof.
  unfold pa.column_ok. cbn [fst snd]. rewrite <- labelled_nil.
  destruct (pd.labelled name df) as [| kv found] eqn:Hl.
  - split; auto.
  - split.
    + intros Hf. right.
      assert (exists x, x ∈ kv :: found /\ pa.series_ok c (snd x) = false) as (x & Hin & Hx).
      { clear Hl. induction (kv :: found) as [| y l IH]; [done |]. cbn in Hf.
        apply andb_false_iff in Hf as [Hy | Hl].
        - exists y. split; [apply elem_of_cons; now left | done].
        - destruct (IH Hl) as (x & Hin & Hx). exists x.
          split; [apply elem_of_cons; now right | done]. }
      rewrite <- Hl in Hin. apply list_elem_of_filter in Hin as [Hk Hin].
      destruct x as [k s']. cbn in *. subst k. eauto.
    + intros [Hnil | (s' & Hin & Hs')]; [done |].
      assert ((name, s') ∈ kv :: found) as Hin'
        by (rewrite <- Hl; apply list_elem_of_filter; auto).
      clear Hl. induction (kv :: found) as [| y l IH]; [now apply elem_of_nil in Hin' |].
      cbn. apply andb_false_iff. apply elem_of_cons in Hin' as [<- | Hin']; auto.
Qed.

(** The schema rejects a frame exactly when a declared column is absent
    or a declared constraint is violated. *)
Lemma valid_false (schema : pa.DataFrameSchema) (df : pd.DataFrame) :
  pa.valid schema df = false <->
  pa.missing_column schema df \/ pa.violates_constraints schema df.
Proof.
  unfold pa.valid, pa.missing_column, pa.violates_constraints. split.
  - intros Hf.
    assert (exists nc, nc ∈ schema /\ pa.column_ok df nc = false) as ([name c] & Hin & Hnc).
    { induction schema as [| y l IH]; [done |]. cbn in Hf.
      apply andb_false_iff in Hf as [Hy | Hl].
      - exists y. split; [apply elem_of_cons; now left | done].
      - destruct (IH Hl) as (x & Hin & Hx). exists x.
        split; [apply elem_of_cons; now right | done]. }
    apply column_ok_false in Hnc as [Hmiss | (s' & Hin' & Hs')].
    + left. eauto.
    + right. apply series_ok_false in Hs'. eauto 6.
  - intros H.
    assert (exists nc, nc ∈ schema /\ pa.column_ok df nc = false) as (nc & Hin & Hnc).
    { destruct H as [(name & c & Hin & Hmiss) | (name & c & s' & Hin & Hin' & Hs')];
        exists (name, c); (split; [done |]); apply column_ok_false.
      - now left.
      - right. exists s'. split; [done |]. now apply series_ok_false. }
    clear H. induction schema as [| y l IH]; [now apply elem_of_nil in Hin |].
    cbn. apply andb_false_iff. apply elem_of_cons in Hin as [<- | Hin]; auto.
Qed.

(** ** BaseData: construction *)

Lemma data_schema_run (c : ref) (o : ColumnsObj) (s : State) :
  columns_heap s !! c = Some o ->
  Columns.data_schema c s = (Ok (schema_of o), cached c o s).
Proof.
  intros Hc. unfold Columns.data_schema.
  rewrite (bind_ok _ _ _ _ _ (deref_columns_ok s c o Hc)).
  unfold cached, with_cache, schema_of.
  destruct o as [cls fs [schema |]]; cbn; [| done].
  unfold ret. rewrite list_insert_id by done. now destruct s.
Qed.

Lemma validate_data_run (c : ref) (o : ColumnsObj) (data : pd.DataFrame) (s : State) :
  columns_heap s !! c = Some o ->
  Columns.validate_data c data s
  = (if pa.valid (schema_of o) data then Ok tt else Raise SchemaError, cached c o s).
Proof.
  intros Hc. unfold Columns.validate_data.
  rewrite (bind_ok _ _ _ _ _ (data_schema_run c o s Hc)).
  unfold bind, lift, pa.validate. now destruct (pa.valid (schema_of o) data).
Qed.

(** Construction with the check: the frame is validated against the
    schema of the given [Columns] instance, and the new object refers to
    that very instance. *)
Lemma init_checked (cls : DataClass) (data : pd.DataFrame) (c : ref) (o : ColumnsObj)
    (s : State) :
  columns_heap s !! c = Some o ->
  BaseData.__init__ cls data (Some c) false s
  = if pa.valid (schema_of o) data
    then (Ok (length (data_heap s)),
          {| columns_heap := <[c := with_cache o]> (columns_heap s);
             data_heap := data_heap s ++ [{| __class__ := cls; columns := c; _data := data |}];
             events := events s |})
    else (Raise SchemaError, cached c o s).
Proof.
  intros Hc. unfold BaseData.__init__. cbn. unfold bind at 1. cbn.
  unfold bind. rewrite (validate_data_run c o data s Hc).
  now destruct (pa.valid (schema_of o) data).
Qed.

(** C1: constructing a [BaseData] from a frame and a [Columns] instance.
    Without [skip_check], a frame that lacks a column declared in the
    instance's schema, or that breaks a declared dtype or nullability
    constraint, makes the constructor raise SchemaError, and no object is
    made.  With [skip_check], the constructor returns a new object over
    the same frame whatever the frame is, the schema is not even read,
    and the one effect besides is a UserWarning whose message carries the
    name of the concrete class. *)
Theorem C1_init_validates_or_warns (cls : DataClass) (data : pd.DataFrame)
    (c : ref) (o : ColumnsObj) (s : State) :
  columns_heap s !! c = Some o ->
  (pa.missing_column (schema_of o) data \/ pa.violates_constraints (schema_of o) data ->
   exists s', BaseData.__init__ cls data (Some c) false s = (Raise SchemaError, s')
              /\ data_heap s' = data_heap s)
  /\ (exists d s',
        BaseData.__init__ cls data (Some c) true s = (Ok d, s')
        /\ data_heap s' !! d = Some {| __class__ := cls; columns := c; _data := data |}
        /\ columns_heap s' = columns_heap s
        /\ events s' = events s ++ [UserWarning ("Data check skipped " +:+ __name__ cls +:+ ".")]).
Proof.
  intros Hc. split.
  - intros Hbad. apply valid_false in Hbad.
    rewrite (init_checked cls data c o s Hc), Hbad. eauto.
  - eexists _, _. split; [reflexivity |]. cbn. split; [| done].
    rewrite lookup_app_r by done. now rewrite Nat.sub_diag.
Qed.

(** The scenario of the specification: the frame without "Name B" is refused, and
    accepted with a warning under [skip_check]. *)
Lemma C1_init_validates_or_warns_witness :
  (exists s', BaseData.__init__ Tests.TestData Tests.data_no_b (Some 0) false Tests.store
              = (Raise SchemaError, s'))
  /\ (exists d s', BaseData.__init__ Tests.TestData Tests.data_no_b (Some 0) true Tests.store
                   = (Ok d, s')
                   /\ events s' = [UserWarning "Data check skipped TestData."]).
Proof.
  destruct (C1_init_validates_or_warns Tests.TestData Tests.data_no_b 0
              Tests.test_columns Tests.store eq_refl) as [Hraise Hskip].
  split.
  - destruct Hraise as (s' & E & _); [| eauto].
    left. exists "Name B", {| pa.dtype := pd.int64; pa.nullable := false |}. split.
    + cbn. apply elem_of_cons. right. apply elem_of_cons. now left.
    + cbn. rewrite list_elem_of_singleton. discriminate.
  - destruct Hskip as (d & s' & E & _ & _ & Hev). eauto.
Defined.

(** ** BaseData: derived construction *)

Lemma deref_data_ok (s : State) (d : ref) (od : BaseDataObj) :
  data_heap s !! d = Some od -> deref_data d s = (Ok od, s).
Proof. intros Hd. unfold deref_data. now rewrite Hd. Qed.

Lemma data_ok (s : State) (d : ref) (od : BaseDataObj) :
  data_heap s !! d = Some od -> BaseData.data d s = (Ok (_data od), s).
Proof.
  intros Hd. unfold BaseData.data.
  now rewrite (bind_ok _ _ _ _ _ (deref_data_ok s d od Hd)).
Qed.

Lemma c_ok (s : State) (d : ref) (od : BaseDataObj) :
  data_heap s !! d = Some od -> BaseData.c d s = (Ok (columns od), s).
Proof.
  intros Hd. unfold BaseData.c.
  now rewrite (bind_ok _ _ _ _ _ (deref_data_ok s d od Hd)).
Qed.

Lemma new_data_is_init (s : State) (d : ref) (od : BaseDataObj) (t : pd.DataFrame) :
  data_heap s !! d = Some od ->
  BaseData.new_data d t s = BaseData.__init__ (__class__ od) t (Some (columns od)) false s.
Proof.
  intros Hd. unfold BaseData.new_data.
  now rewrite (bind_ok _ _ _ _ _ (deref_data_ok s d od Hd)).
Qed.

Lemma transform_is_init (s s1 : State) (d : ref) (od : BaseDataObj)
    (f : BaseTransform) (t' : pd.DataFrame) :
  data_heap s !! d = Some od ->
  call f (_data od) s = (Ok t', s1) ->
  BaseData.transform d f s = BaseData.__init__ (__class__ od) t' (Some (columns od)) false s1.
Proof.
  intros Hd Hf. unfold BaseData.transform.
  rewrite (bind_ok _ _ _ _ _ (deref_data_ok s d od Hd)).
  unfold BaseData.from_dataframe. now rewrite (bind_ok _ _ _ _ _ Hf).
Qed.

(** C9: [d.new_data(t)] validates [t] against the schema of [d]'s
    [Columns] instance: it raises SchemaError when [t] lacks a declared
    column or breaks a declared constraint, and otherwise returns a new
    object of [d]'s class over [t] whose [columns] is the same reference
    as [d]'s.  [d.transform(f)] does the same with the frame that [f]
    returns for [d]'s data, in the state [f] leaves. *)
Theorem C9_new_data_revalidates (s : State) (d : ref) (od : BaseDataObj)
    (oc : ColumnsObj) (t : pd.DataFrame) :
  data_heap s !! d = Some od ->
  columns_heap s !! columns od = Some oc ->
  (pa.missing_column (schema_of oc) t \/ pa.violates_constraints (schema_of oc) t ->
   exists s', BaseData.new_data d t s = (Raise SchemaError, s'))
  /\ (pa.valid (schema_of oc) t = true ->
      exists d' s',
        BaseData.new_data d t s = (Ok d', s')
        /\ data_heap s' !! d'
           = Some {| __class__ := __class__ od; columns := columns od; _data := t |})
  /\ (forall (f : BaseTransform) (t' : pd.DataFrame) (s1 : State) (oc1 : ColumnsObj),
        call f (_data od) s = (Ok t', s1) ->
        columns_heap s1 !! columns od = Some oc1 ->
        (pa.missing_column (schema_of oc1) t' \/ pa.violates_constraints (schema_of oc1) t' ->
         exists s', BaseData.transform d f s = (Raise SchemaError, s'))
        /\ (pa.valid (schema_of oc1) t' = true ->
            exists d' s',
              BaseData.transform d f s = (Ok d', s')
              /\ data_heap s' !! d'
                 = Some {| __class__ := __class__ od; columns := columns od; _data := t' |})).
Proof.
  intros Hd Hc.
  assert (forall cls data c o s0, columns_heap s0 !! c = Some o ->
            (pa.missing_column (schema_of o) data \/ pa.violates_constraints (schema_of o) data ->
             exists s', BaseData.__init__ cls data (Some c) false s0 = (Raise SchemaError, s'))
            /\ (pa.valid (schema_of o) data = true ->
                exists d' s',
                  BaseData.__init__ cls data (Some c) false s0 = (Ok d', s')
                  /\ data_heap s' !! d' = Some {| __class__ := cls; columns := c; _data := data |}))
    as Hinit.
  { intros cls data c o s0 Ho. rewrite (init_checked cls data c o s0 Ho). split.
    - intros Hbad. apply valid_false in Hbad. rewrite Hbad. eauto.
    - intros ->. eexists _, _. split; [reflexivity |]. cbn.
      rewrite lookup_app_r by done. now rewrite Nat.sub_diag. }
  split; [| split].
  - rewrite (new_data_is_init s d od t Hd). now apply Hinit.
  - rewrite (new_data_is_init s d od t Hd). now apply Hinit.
  - intros f t' s1 oc1 Hf Hc1. rewrite (transform_is_init s s1 d od f t' Hd Hf).
    now apply Hinit.
Qed.

(** On the objects of the tests: the frame with a missing value is refused
    by [new_data], the complete one is accepted and shares the [Columns]
    instance at reference 0; [transform] with [Refill] is accepted too. *)
Lemma C9_new_data_revalidates_witness :
  (exists s', BaseData.new_data 0 Tests.data_na Tests.store = (Raise SchemaError, s'))
  /\ (exists d' s', BaseData.new_data 0 Tests.data Tests.store = (Ok d', s')
                    /\ columns <$> data_heap s' !! d' = Some 0)
  /\ (exists d' s', BaseData.transform 0 Tests.Refill Tests.store = (Ok d', s')
                    /\ columns <$> data_heap s' !! d' = Some 0).
Proof.
  pose proof (C9_new_data_revalidates Tests.store 0
                {| __class__ := Tests.TestData; columns := 0; _data := Tests.data_na |}
                Tests.test_columns) as H.
  split; [| split].
  - destruct (H Tests.data_na eq_refl eq_refl) as (Hraise & _ & _). apply Hraise.
    right. exists "Name B", {| pa.dtype := pd.int64; pa.nullable := false |},
      {| pd.dtype := pd.object; pd.values := [pd.Int 1; pd.Int 2; pd.NA] |}.
    split; [| split].
    + cbn. apply elem_of_cons. right. apply elem_of_cons. now left.
    + cbn. apply elem_of_cons. right. apply elem_of_cons. now left.
    + left. discriminate.
  - destruct (H Tests.data eq_refl eq_refl) as (_ & Hok & _).
    destruct (Hok eq_refl) as (d' & s' & E & Hd'). exists d', s'. now rewrite Hd'.
  - destruct (H Tests.data eq_refl eq_refl) as (_ & _ & Htr).
    destruct (Htr Tests.Refill Tests.data
                {| columns_heap := [Tests.test_columns];
                   data_heap := data_heap Tests.store;
                   events := [Trace "Refill"] |}
                Tests.test_columns eq_refl eq_refl) as (_ & Hok).
    destruct (Hok eq_refl) as (d' & s' & E & Hd'). exists d', s'. now rewrite Hd'.
Defined.

(** ** Selecting columns of a frame *)

Lemma getitem_present (df : pd.DataFrame) (keys : list string) :
  Forall (fun k => k ∈ pd.columns df) keys ->
  pd.getitem df keys
  = Ok {| pd.index := pd.index df;
          pd.items := flat_map (fun k => pd.labelled k df) keys |}.
Proof.
  intros Hall. unfold pd.getitem.
  assert (filter (fun k => pd.labelled k df = []) keys = []) as ->; [| done].
  induction Hall as [| k keys Hk Hall IH]; [done |].
  rewrite filter_cons_False; [done |].
  rewrite labelled_nil. tauto.
Qed.

Lemma getitem_missing (df : pd.DataFrame) (keys : list string) (k : string) :
  k ∈ keys -> k ∉ pd.columns df ->
  exists missing, pd.getitem df keys = Raise (KeyError missing).
Proof.
  intros Hin Hout. unfold pd.getitem.
  assert (k ∈ filter (fun k => pd.labelled k df = []) keys) as Hf
    by (apply list_elem_of_filter; split; [now apply labelled_nil | done]).
  destruct (filter (fun k => pd.labelled k df = []) keys) as [| m ms]; [| eauto].
  now apply elem_of_nil in Hf.
Qed.

(** With distinct labels, a label that occurs names exactly one column. *)
Lemma labelled_unique (df : pd.DataFrame) (k : string) :
  NoDup (pd.columns df) -> k ∈ pd.columns df ->
  exists s, pd.labelled k df = [(k, s)] /\ pd.column df k = Some s.
Proof.
  unfold pd.column. intros Hnd Hin.
  enough (exists s, pd.labelled k df = [(k, s)]) as (s & Hs)
    by (exists s; rewrite Hs; done).
  revert Hnd Hin. unfold pd.labelled, pd.columns.
  induction (pd.items df) as [| [k' s'] l IH]; intros Hnd Hin.
  - now apply elem_of_nil in Hin.
  - cbn in Hnd, Hin. apply NoDup_cons in Hnd as [Hk' Hnd].
    destruct (decide (k' = k)) as [-> | Hne].
    + exists s'. rewrite filter_cons_True by done. f_equal.
      apply elem_of_nil_inv. intros [k2 s2] H2.
      apply list_elem_of_filter in H2 as [E H2]. cbn in E. subst k2.
      apply Hk'. now apply (list_elem_of_fmap_2 fst) in H2.
    + rewrite filter_cons_False by done. apply IH; [done |].
      apply elem_of_cons in Hin as [E | Hin]; [congruence | done].
Qed.

Lemma count_true_map {A} (f : A -> bool) (l : list A) :
  length (filter (fun b => b = true) (map f l))
  = length (filter (fun v => f v = true) l).
Proof.
  induction l as [| v l IH]; [done |].
  change (map f (v :: l)) with (f v :: map f l).
  destruct (f v) eqn:Hv.
  - rewrite !filter_cons_True by done. cbn. now rewrite IH.
  - rewrite !filter_cons_False by congruence. exact IH.
Qed.

(** The presence ratios of the selected columns, label by label. *)
Lemma presence_of_selected (df : pd.DataFrame) (keys : list string) (n : Z) :
  NoDup (pd.columns df) ->
  Forall (fun k => k ∈ pd.columns df) keys ->
  pd.truediv (pd.sum_axis0 (pd.notna
     {| pd.index := pd.index df;
        pd.items := flat_map (fun k => pd.labelled k df) keys |})) n
  = map (fun k => (k, PrimFloat.div (pd.to_float (non_null_count df k)) (pd.to_float n))) keys.
Proof.
  intros Hnd Hall. unfold pd.truediv, pd.sum_axis0, pd.notna. cbn [pd.items].
  induction Hall as [| k keys Hk Hall IH]; [done |].
  destruct (labelled_unique df k Hnd Hk) as (s & Hl & Hc).
  cbn [flat_map]. rewrite Hl. cbn [app map fst snd]. rewrite IH. f_equal.
  unfold non_null_count. rewrite Hc. now rewrite count_true_map.
Qed.

(** ** BaseData: presence of values *)

Lemma get_values_presence_run (s : State) (d : ref) (od : BaseDataObj) (cols : list string) :
  data_heap s !! d = Some od ->
  NoDup (pd.columns (_data od)) ->
  Forall (fun k => k ∈ pd.columns (_data od)) cols ->
  BaseData.get_values_presence d cols s
  = (Ok (map (fun k =>
            (k, PrimFloat.div (pd.to_float (non_null_count (_data od) k))
                              (pd.to_float (Z.of_nat (length (pd.index (_data od)))))))
          cols), s).
Proof.
  intros Hd Hnd Hall. unfold BaseData.get_values_presence.
  rewrite (bind_ok _ _ _ _ _ (data_ok s d od Hd)).
  unfold bind, lift. rewrite (getitem_present _ _ Hall).
  unfold ret. now rewrite presence_of_selected.
Qed.

(** Without any assumption on the labels: one entry per column that
    carries a requested label, in the order of the request. *)
Lemma presence_of_columns (df : pd.DataFrame) (keys : list string) (n : Z) :
  pd.truediv (pd.sum_axis0 (pd.notna
     {| pd.index := pd.index df;
        pd.items := flat_map (fun k => pd.labelled k df) keys |})) n
  = flat_map (fun k =>
       map (fun kv => (k, PrimFloat.div (pd.to_float (non_null_in (snd kv))) (pd.to_float n)))
           (pd.labelled k df)) keys.
Proof.
  unfold pd.truediv, pd.sum_axis0, pd.notna. cbn [pd.items].
  induction keys as [| k keys IH]; [done |].
  cbn [flat_map]. rewrite !map_app, IH. f_equal.
  rewrite !map_map. apply map_ext_in. intros [k' v] Hin.
  apply list_elem_of_In, list_elem_of_filter in Hin as [E _]. cbn in E. subst k'.
  cbn [fst snd]. unfold non_null_in. now rewrite count_true_map.
Qed.

(** C5: on a table that has rows, for column names that are all labels
    of the table, [get_values_presence] returns, for each name in the
    order given and for each column carrying that label, the number of
    values of that column that are not missing, divided (in float64) by
    the number of rows.  With distinct labels that is one entry per name:
    the presence of the column of that name. *)
Theorem C5_get_values_presence (s : State) (d : ref) (od : BaseDataObj) (cols : list string) :
  data_heap s !! d = Some od ->
  pd.index (_data od) <> [] ->
  Forall (fun k => k ∈ pd.columns (_data od)) cols ->
  BaseData.get_values_presence d cols s
  = (Ok (flat_map (fun k =>
            map (fun kv =>
                   (k, PrimFloat.div (pd.to_float (non_null_in (snd kv)))
                                     (pd.to_float (Z.of_nat (length (pd.index (_data od)))))))
                (pd.labelled k (_data od)))
          cols), s)
  /\ (NoDup (pd.columns (_data od)) ->
      BaseData.get_values_presence d cols s
      = (Ok (map (fun k =>
                (k, PrimFloat.div (pd.to_float (non_null_count (_data od) k))
                                  (pd.to_float (Z.of_nat (length (pd.index (_data od)))))))
              cols), s)).
Proof.
  intros Hd _ Hall. split; [| intros Hnd; now apply get_values_presence_run].
  unfold BaseData.get_values_presence.
  rewrite (bind_ok _ _ _ _ _ (data_ok s d od Hd)).
  unfold bind, lift. rewrite (getitem_present _ _ Hall).
  unfold ret. now rewrite presence_of_columns.
Qed.

(** One missing value out of three rows in "Name B": the presence is
    2/3.  And on a frame with two columns labelled "Name B", one entry
    for each. *)
Lemma C5_get_values_presence_witness :
  BaseData.get_values_presence 0 ["Name B"] Tests.store
  = (Ok [("Name B", PrimFloat.div 2 3)], Tests.store)
  /\ BaseData.get_values_presence 0 ["Name B"] MoreTests.store
     = (Ok [("Name B", PrimFloat.div 2 3); ("Name B", PrimFloat.div 3 3)], MoreTests.store).
Proof.
  split.
  - destruct (C5_get_values_presence Tests.store 0
                {| __class__ := Tests.TestData; columns := 0; _data := Tests.data_na |}
                ["Name B"]) as [E _].
    + reflexivity.
    + discriminate.
    + cbn. repeat constructor.
    + rewrite E. reflexivity.
  - destruct (C5_get_values_presence MoreTests.store 0
                {| __class__ := Tests.TestData; columns := 0; _data := MoreTests.twins |}
                ["Name B"]) as [E _].
    + reflexivity.
    + discriminate.
    + cbn. repeat constructor.
    + rewrite E. reflexivity.
Defined.






(** ** BaseData: truncation *)

Section Selection.

Variables (df : pd.DataFrame) (keys : list string).
Hypothesis Hnd : NoDup (pd.columns df).
Hypothesis Hall : Forall (fun k => k ∈ pd.columns df) keys.

(** The selection has the requested labels, in the requested order. *)
Lemma selected_columns : pd.columns (selected df keys) = keys.
Proof.
  unfold pd.columns, selected. cbn [pd.items].
  induction Hall as [| k ks Hk Hks IH]; [done |].
  destruct (labelled_unique df k Hnd Hk) as (s & Hl & _).
  cbn [flat_map]. rewrite Hl. cbn. now rewrite IH.
Qed.

(** Each requested label names the same column, values included, in the
    selection as in the frame. *)
Lemma selected_column (k : string) :
  k ∈ keys -> pd.column (selected df keys) k = pd.column df k.
Proof.
  unfold pd.column, selected. unfold pd.labelled at 1. cbn [pd.items].
  induction Hall as [| k0 ks Hk0 Hks IH]; intros Hin.
  - now apply elem_of_nil in Hin.
  - destruct (labelled_unique df k0 Hnd Hk0) as (s0 & Hl & _).
    cbn [flat_map]. rewrite filter_app, Hl.
    destruct (decide (k0 = k)) as [-> | Hne].
    + rewrite filter_cons_True by done. now rewrite Hl.
    + rewrite filter_cons_False by done. rewrite filter_nil. cbn [app].
      apply IH; [done |].
      apply elem_of_cons in Hin as [E | Hin]; [congruence | done].
Qed.

End Selection.

(** [truncate_columns] is the checked construction over the selection of
    the physical names. *)
Lemma truncate_columns_is_init (s : State) (d : ref) (od : BaseDataObj) (oc : ColumnsObj) :
  data_heap s !! d = Some od ->
  columns_heap s !! columns od = Some oc ->
  wf_columns oc ->
  Forall (fun k => k ∈ pd.columns (_data od)) (map snd (fields oc)) ->
  BaseData.truncate_columns d s
  = BaseData.__init__ (__class__ od) (selected (_data od) (map snd (fields oc)))
      (Some (columns od)) false s.
Proof.
  intros Hd Hc Hwf Hall. unfold BaseData.truncate_columns.
  rewrite (bind_ok _ _ _ _ _ (data_ok s d od Hd)).
  rewrite (bind_ok _ _ _ _ _ (c_ok s d od Hd)).
  rewrite (bind_ok _ _ _ _ _ (get_names_ok s _ oc Hc Hwf)).
  unfold bind at 1. unfold lift. rewrite (getitem_present _ _ Hall).
  now apply new_data_is_init.
Qed.

(** C7 as stated does not hold.  [TestData(data_na,
    skip_check=True)] is a [TestData] whose table has both declared
    columns, "Name A" and "Name B", and nothing else; [truncate_columns]
    on it raises SchemaError, because it validates the table it builds. *)
Lemma C7_counterexample :
  pd.columns Tests.data_na = ["Name A"; "Name B"]
  /\ (exists s',
        (let* c := Columns.__init__ Tests.TestColumns in
         let* d := BaseData.__init__ Tests.TestData Tests.data_na (Some c) true in
         let* names := Columns.get_names c in
         ret (d, names)) Tests.empty_store
        = (Ok (0, ["Name A"; "Name B"]), s'))
  /\ (exists s',
        (let* c := Columns.__init__ Tests.TestColumns in
         let* d := BaseData.__init__ Tests.TestData Tests.data_na (Some c) true in
         BaseData.truncate_columns d) Tests.empty_store
        = (Raise SchemaError, s')).
Proof.
  split; [reflexivity |]. split; eexists; reflexivity.
Qed.

(** C7, amended: for a [BaseData] whose table, with distinct labels,
    has every physical name of its [Columns] instance, [truncate_columns]
    validates the selection of those names against the schema.  When the
    selection passes, the call returns a new object of the same class,
    sharing the [Columns] instance, whose table has exactly the physical
    names as labels, in declaration order, the same index, and under
    each name the column the original table has; the original object is
    left as it was.  When it does not pass, the call raises SchemaError. *)
Theorem C7_truncate_columns (s : State) (d : ref) (od : BaseDataObj) (oc : ColumnsObj) :
  data_heap s !! d = Some od ->
  columns_heap s !! columns od = Some oc ->
  wf_columns oc ->
  NoDup (pd.columns (_data od)) ->
  Forall (fun k => k ∈ pd.columns (_data od)) (map snd (fields oc)) ->
  Columns.get_names (columns od) s = (Ok (map snd (fields oc)), s)
  /\ (pa.valid (schema_of oc) (selected (_data od) (map snd (fields oc))) = true ->
      exists (d' : ref) (t' : pd.DataFrame) (s' : State),
        BaseData.truncate_columns d s = (Ok d', s')
        /\ d' <> d
        /\ data_heap s' !! d'
           = Some {| __class__ := __class__ od; columns := columns od; _data := t' |}
        /\ pd.columns t' = map snd (fields oc)
        /\ pd.index t' = pd.index (_data od)
        /\ (forall k, k ∈ map snd (fields oc) -> pd.column t' k = pd.column (_data od) k)
        /\ data_heap s' !! d = Some od)
  /\ (pa.valid (schema_of oc) (selected (_data od) (map snd (fields oc))) = false ->
      exists s', BaseData.truncate_columns d s = (Raise SchemaError, s')
                 /\ data_heap s' = data_heap s).
Proof.
  intros Hd Hc Hwf Hnd Hall.
  split; [now apply get_names_ok |].
  rewrite (truncate_columns_is_init s d od oc Hd Hc Hwf Hall).
  rewrite (init_checked _ _ _ oc s Hc).
  split; intros ->.
  - eexists _, _, _. split; [reflexivity |]. cbn.
    split; [apply lookup_lt_Some in Hd; lia |].
    split; [rewrite lookup_app_r by done; now rewrite Nat.sub_diag |].
    split; [now apply selected_columns |]. split; [done |].
    split; [intros k Hk; now apply selected_column |].
    now apply lookup_app_l_Some.
  - eauto.
Qed.

(** [TestData] over a frame with the columns "Extra", "Name B", "Name A":
    truncation keeps "Name A" and "Name B", in that order. *)
Lemma C7_truncate_columns_witness :
  exists d' t' s',
    BaseData.truncate_columns 2 Tests.store = (Ok d', s')
    /\ data_heap s' !! d' = Some {| __class__ := Tests.TestData; columns := 0; _data := t' |}
    /\ pd.columns t' = ["Name A"; "Name B"]
    /\ data_heap s' !! 2
       = Some {| __class__ := Tests.TestData; columns := 0; _data := Tests.data_extra |}.
Proof.
  destruct (C7_truncate_columns Tests.store 2
              {| __class__ := Tests.TestData; columns := 0; _data := Tests.data_extra |}
              Tests.test_columns) as (_ & Hok & _).
  - reflexivity.
  - reflexivity.
  - unfold wf_columns. cbn. split; [done |]. split.
    + repeat constructor; rewrite ?elem_of_cons, ?elem_of_nil; intuition discriminate.
    + rewrite !elem_of_cons, elem_of_nil. intuition discriminate.
  - cbn. repeat constructor; rewrite ?elem_of_cons, ?elem_of_nil; intuition discriminate.
  - cbn. repeat constructor.
  - destruct (Hok eq_refl) as (d' & t' & s' & E & _ & Hd' & Hcols & _ & _ & Hd).
    exists d', t', s'. auto.
Defined.

(** * Further properties *)

(** ** Pipelines: composition, exceptions, logging *)

(** Only the truth of [verbose == 1] matters to the loop. *)
Lemma loop_same_logging (p q : Pipeline.t) (rest : list BaseTransform) :
  (Pipeline.verbose p =? 1)%Z = (Pipeline.verbose q =? 1)%Z ->
  forall data s,
    Pipeline.loop q rest data s =
    (match fst (Pipeline.loop p rest data s) with
     | Ok r => Ok (q, snd r)
     | Raise e => Raise e
     end, snd (Pipeline.loop p rest data s)).
Proof.
  intros Hv. induction rest as [| func rest IH]; intros data s; cbn; [done |].
  unfold bind. rewrite Hv.
  destruct (call func data s) as [[d | e] s1]; [| done].
  destruct (log_step_ok q (Some (transform_class_name func))
              "{} produces shape {}" (pd.shape d) s1) as [s2 Hlog].
  rewrite Hlog.
  destruct (pd.empty d); [done |]. apply IH.
Qed.

(** The loop over a concatenation: the first part runs; unless it raised
    or ended on an empty frame, the second part runs on its result. *)
Lemma loop_app (p : Pipeline.t) (pre post : list BaseTransform) :
  pre <> [] ->
  forall data s,
    Pipeline.loop p (pre ++ post) data s =
    match Pipeline.loop p pre data s with
    | (Ok r, s1) => if pd.empty (snd r) then (Ok r, s1) else Pipeline.loop p post (snd r) s1
    | (Raise e, s1) => (Raise e, s1)
    end.
Proof.
  induction pre as [| f pre IH]; intros Hne data s; [done |].
  cbn. unfold bind.
  destruct (call f data s) as [[d | e] s1]; [| done].
  destruct (log_step_ok p (Some (transform_class_name f))
              "{} produces shape {}" (pd.shape d) s1) as [s2 Hlog].
  rewrite Hlog.
  destruct (pd.empty d) eqn:Hd.
  - cbn. now rewrite Hd.
  - destruct pre as [| g pre].
    + cbn. now rewrite Hd.
    + now apply IH.
Qed.

Lemma call_quiet (fs : list BaseTransform) (data : pd.DataFrame) (s : State) :
  Pipeline.__call__ (Pipeline.__init__ fs) data s =
  match Pipeline.loop (Pipeline.__init__ fs) fs data s with
  | (Ok r, s1) => (Ok (snd r), s1)
  | (Raise e, s1) => (Raise e, s1)
  end.
Proof.
  unfold Pipeline.__call__, Pipeline.run, Pipeline.__init__, bind. cbn.
  now destruct (Pipeline.loop _ fs data s) as [[r | e] s1].
Qed.

Lemma call_single (f : BaseTransform) (t : pd.DataFrame) (s : State) :
  Pipeline.__call__ (Pipeline.__init__ [f]) t s = call f t s.
Proof.
  rewrite call_quiet. cbn. unfold bind.
  destruct (call f t s) as [[d | e] s1]; [| done]. cbn.
  now destruct (pd.empty d).
Qed.

(** X1: a pipeline of one transform is that transform: same result,
    same exception, same final state; and a pipeline of the identity
    transform alone returns its argument. *)
Theorem X1_single_step_pipeline (f : BaseTransform) (t : pd.DataFrame) (s : State) :
  Pipeline.__call__ (Pipeline.__init__ [f]) t s = call f t s
  /\ Pipeline.__call__ (Pipeline.__init__ [identity_transform]) t s = (Ok t, s).
Proof. split; now rewrite call_single. Qed.

(** X2: nesting flattens.  For a non-empty sequence [A], the pipeline
    of the two pipelines over [A] and over [B] does what the single
    pipeline over [A ++ B] does. *)
Theorem X2_nested_pipelines_flatten (A B : list BaseTransform) (t : pd.DataFrame) (s : State) :
  A <> [] ->
  Pipeline.__call__
    (Pipeline.__init__ [Pipeline.as_transform (Pipeline.__init__ A);
                        Pipeline.as_transform (Pipeline.__init__ B)]) t s
  = Pipeline.__call__ (Pipeline.__init__ (A ++ B)) t s.
Proof.
  intros HA. rewrite (call_quiet (A ++ B)), (loop_app _ A B HA).
  rewrite (loop_same_logging (Pipeline.__init__ A) (Pipeline.__init__ (A ++ B))) by done.
  rewrite call_quiet. cbn [Pipeline.loop Pipeline.as_transform call].
  unfold bind. rewrite (call_quiet A).
  destruct (Pipeline.loop (Pipeline.__init__ A) A t s) as [[[pa ra] | e] s1]; [| done].
  cbn. destruct (pd.empty ra); [done |].
  rewrite (call_quiet B).
  rewrite (loop_same_logging (Pipeline.__init__ B) (Pipeline.__init__ (A ++ B))) by done.
  destruct (Pipeline.loop (Pipeline.__init__ B) B ra s1) as [[[pb rb] | e] s2]; [| done].
  cbn. now destruct (pd.empty rb).
Qed.

Lemma X2_nested_pipelines_flatten_witness :
  Pipeline.__call__
    (Pipeline.__init__ [Pipeline.as_transform (Pipeline.__init__ [Tests.Refill]);
                        Pipeline.as_transform (Pipeline.__init__ [Tests.DropRows; Tests.Refill])])
    Tests.data_no_rows Tests.empty_store
  = (Ok Tests.data_no_rows,
     {| columns_heap := []; data_heap := [];
        events := [Trace "Refill"; Trace "DropRows"] |}).
Proof.
  rewrite (X2_nested_pipelines_flatten [Tests.Refill] [Tests.DropRows; Tests.Refill]).
  - reflexivity.
  - discriminate.
Defined.

(** X3: when no transform of the sequence ever returns an empty frame,
    the pipeline is the plain composition of its transforms, in order. *)
Theorem X3_pipeline_is_composition (fs : list BaseTransform) (t : pd.DataFrame) (s : State) :
  Forall never_empty fs ->
  Pipeline.__call__ (Pipeline.__init__ fs) t s = chain fs t s.
Proof.
  intros Hall. rewrite call_quiet. revert t s.
  induction Hall as [| f fs Hf Hall IH]; intros t s; [done |].
  cbn. unfold bind.
  destruct (call f t s) as [[d | e] s1] eqn:Hcall; [| done]. cbn.
  rewrite (Hf _ _ _ _ Hcall).
  rewrite <- IH.
  rewrite (loop_same_logging (Pipeline.__init__ fs) (Pipeline.__init__ (f :: fs))) by done.
  now destruct (Pipeline.loop (Pipeline.__init__ fs) fs d s1) as [[r | e] s2].
Qed.

Lemma X3_pipeline_is_composition_witness :
  Pipeline.__call__ (Pipeline.__init__ [Tests.Refill; Tests.Refill])
    Tests.data_no_rows Tests.empty_store
  = (Ok Tests.data,
     {| columns_heap := []; data_heap := [];
        events := [Trace "Refill"; Trace "Refill"] |}).
Proof.
  rewrite X3_pipeline_is_composition; [reflexivity |].
  assert (never_empty Tests.Refill) as HR.
  { intros d s r s' E. cbn in E. inversion E. reflexivity. }
  repeat constructor; exact HR.
Defined.

(** X4: only the value 1 of [verbose] turns logging on; with any other
    value the pipeline does exactly what it does with the default 0. *)
Theorem X4_verbose_other_than_one (fs : list BaseTransform) (v : Z)
    (t : pd.DataFrame) (s : State) :
  v <> 1%Z ->
  Pipeline.__call__ {| Pipeline.transforms := fs; Pipeline.verbose := v |} t s
  = Pipeline.__call__ (Pipeline.__init__ fs) t s.
Proof.
  intros Hv. apply Z.eqb_neq in Hv.
  rewrite call_quiet, call_of_run. unfold Pipeline.run, bind. cbn. rewrite Hv. cbn.
  rewrite (loop_same_logging (Pipeline.__init__ fs)
             {| Pipeline.transforms := fs; Pipeline.verbose := v |}) by (cbn; now rewrite Hv).
  now destruct (Pipeline.loop (Pipeline.__init__ fs) fs t s) as [[r | e] s1].
Qed.

Lemma X4_verbose_other_than_one_witness :
  Pipeline.__call__ {| Pipeline.transforms := [Tests.DropRows; Tests.Refill];
                       Pipeline.verbose := 2 |} Tests.data Tests.empty_store
  = (Ok Tests.data_no_rows,
     {| columns_heap := []; data_heap := []; events := [Trace "DropRows"] |}).
Proof.
  rewrite X4_verbose_other_than_one; [reflexivity | discriminate].
Defined.

Lemma loop_logging_only (p1 p0 : Pipeline.t) (rest : list BaseTransform) :
  Pipeline.verbose p1 = 1%Z -> Pipeline.verbose p0 = 0%Z ->
  Forall state_independent rest ->
  forall data s evs,
    exists logs,
      Forall step_record logs /\ length logs <= length rest
      /\ snd (Pipeline.loop p0 rest data s) = s
      /\ Pipeline.loop p1 rest data (with_events s evs)
         = (match fst (Pipeline.loop p0 rest data s) with
            | Ok r => Ok (p1, snd r)
            | Raise e => Raise e
            end, with_events s (evs ++ logs)).
Proof.
  intros H1 H0 Hall. induction Hall as [| f rest [g Hg] Hall IH]; intros data s evs.
  - exists []. cbn. rewrite app_nil_r. repeat split; constructor.
  - cbn. unfold bind. rewrite !Hg, H1, H0. cbn.
    destruct (g data) as [d | e].
    + destruct (pd.empty d).
      * eexists [_]. cbn. repeat split; [| lia].
        repeat constructor. now eexists _, _.
      * destruct (IH d s (evs ++ [LoggerInfo "{} produces shape {}"
                                    (Some (transform_class_name f)) (pd.shape d)]))
          as (logs & Hlogs & Hlen & Hs & Hrun).
        eexists (_ :: logs). split; [| split; [| split]].
        -- constructor; [now eexists _, _ | exact Hlogs].
        -- cbn. lia.
        -- exact Hs.
        -- unfold with_events in *. cbn in *. rewrite Hrun.
           now rewrite <- app_assoc.
    + exists []. rewrite app_nil_r. repeat split; [constructor | cbn; lia].
Qed.

(** X5: logging is diagnostic only.  For transforms that neither read
    nor write the state, the pipeline with [verbose = 1] returns what the
    quiet pipeline returns (frame or exception); the quiet one leaves the
    state as it was, the verbose one only appends log records: the start
    record with the shape of the input, then at most one record per
    transform. *)
Theorem X5_logging_is_diagnostic (fs : list BaseTransform) (t : pd.DataFrame) (s : State) :
  Forall state_independent fs ->
  exists logs,
    Forall step_record logs /\ length logs <= length fs
    /\ snd (Pipeline.__call__ (Pipeline.__init__ fs) t s) = s
    /\ Pipeline.__call__ {| Pipeline.transforms := fs; Pipeline.verbose := 1 |} t s
       = (fst (Pipeline.__call__ (Pipeline.__init__ fs) t s),
          with_events s (events s ++ LoggerInfo "Start shape {}" None (pd.shape t) :: logs)).
Proof.
  intros Hall.
  destruct (loop_logging_only {| Pipeline.transforms := fs; Pipeline.verbose := 1 |}
              (Pipeline.__init__ fs) fs eq_refl eq_refl Hall t s
              (events s ++ [LoggerInfo "Start shape {}" None (pd.shape t)]))
    as (logs & Hlogs & Hlen & Hs & Hrun).
  exists logs. split; [done |]. split; [done |].
  rewrite call_quiet, call_of_run. unfold Pipeline.run, bind. cbn.
  unfold with_events in Hrun. cbn in Hrun. rewrite Hrun. cbn.
  destruct (Pipeline.loop (Pipeline.__init__ fs) fs t s) as [[r | e] s1];
    cbn in *; subst s1; (split; [done |]); unfold with_events; now rewrite <- app_assoc.
Qed.

Lemma X5_logging_is_diagnostic_witness :
  Pipeline.__call__ {| Pipeline.transforms := [identity_transform; identity_transform];
                       Pipeline.verbose := 1 |} Tests.data Tests.empty_store
  = (Ok Tests.data,
     with_events Tests.empty_store
       [LoggerInfo "Start shape {}" None (3, 2);
        LoggerInfo "{} produces shape {}" (Some "BaseTransform") (3, 2);
        LoggerInfo "{} produces shape {}" (Some "BaseTransform") (3, 2)]).
Proof.
  destruct (X5_logging_is_diagnostic [identity_transform; identity_transform]
              Tests.data Tests.empty_store) as (logs & _ & _ & _ & E).
  - repeat constructor; exists (fun d => Ok d); reflexivity.
  - reflexivity.
Defined.

(** X6: an exception stops the pipeline and reaches the caller.  If the
    pipeline over a prefix of the transforms raises, the pipeline over
    the whole sequence raises the same exception in the same state: no
    later transform runs, nothing is caught. *)
Theorem X6_exception_propagates (v : Z) (pre post : list BaseTransform)
    (t : pd.DataFrame) (s s' : State) (e : exn) :
  Pipeline.__call__ {| Pipeline.transforms := pre; Pipeline.verbose := v |} t s
    = (Raise e, s') ->
  Pipeline.__call__ {| Pipeline.transforms := pre ++ post; Pipeline.verbose := v |} t s
    = (Raise e, s').
Proof.
  set (p := {| Pipeline.transforms := pre |}).
  set (q := {| Pipeline.transforms := pre ++ post |}).
  intros E. rewrite call_of_run in *. unfold Pipeline.run, bind in *.
  destruct (log_step_ok p None "Start shape {}" (pd.shape t) s) as [s1 Hlog].
  change (Pipeline.verbose q) with (Pipeline.verbose p). rewrite Hlog in *.
  cbn [Pipeline.transforms p q] in *.
  destruct pre as [| f pre].
  - cbn in E. discriminate.
  - rewrite (loop_same_logging p q) by done.
    rewrite (loop_app p (f :: pre) post) by done.
    destruct (Pipeline.loop p (f :: pre) t s1) as [[r | e'] s2]; [discriminate |].
    exact E.
Qed.

Lemma X6_exception_propagates_witness :
  Pipeline.__call__
    (Pipeline.__init__
       ([Tests.Refill; MoreTests.Failing] ++ [Tests.DropRows]))
    Tests.data Tests.empty_store
  = (Raise (RuntimeError "failed"),
     {| columns_heap := []; data_heap := []; events := [Trace "Refill"] |}).
Proof.
  apply (X6_exception_propagates 0). reflexivity.
Defined.

(** X7: the transform a [GroupedPipeline] applies to each group.  For
    any non-empty sequence of transforms it does what the pipeline over
    that sequence does (a single transform is kept unwrapped, which makes
    no difference); with no transform at all the constructor raises
    IndexError. *)
Theorem X7_grouped_pipeline_transform (group : string) (transforms : list BaseTransform) :
  (transforms = [] -> GroupedPipeline.__init__ group transforms = Raise IndexError)
  /\ (transforms <> [] ->
      exists gp,
        GroupedPipeline.__init__ group transforms = Ok gp
        /\ GroupedPipeline.group gp = group
        /\ forall t s,
             call (GroupedPipeline.transform gp) t s
             = Pipeline.__call__ (Pipeline.__init__ transforms) t s).
Proof.
  split; [now intros -> |]. intros Hne.
  destruct transforms as [| f [| g rest]]; [done | |].
  - eexists. split; [reflexivity |]. split; [done |].
    intros t s. cbn. now rewrite call_single.
  - eexists. split; [reflexivity |]. done.
Qed.

Lemma X7_grouped_pipeline_transform_witness :
  GroupedPipeline.__init__ "Name A" [] = Raise IndexError
  /\ exists gp,
       GroupedPipeline.__init__ "Name A" [Tests.Refill] = Ok gp
       /\ call (GroupedPipeline.transform gp) Tests.data_no_rows Tests.empty_store
          = Pipeline.__call__ (Pipeline.__init__ [Tests.Refill])
              Tests.data_no_rows Tests.empty_store.
Proof.
  split.
  - now apply (X7_grouped_pipeline_transform "Name A" []).
  - destruct (X7_grouped_pipeline_transform "Name A" [Tests.Refill]) as [_ H].
    destruct H as (gp & E & _ & Hcall); [discriminate |].
    exists gp. split; [exact E | apply Hcall].
Defined.

(** ** Columns: the schema cache, construction, serialisation *)

Lemma lookup_cached (c : ref) (o : ColumnsObj) (s : State) :
  columns_heap s !! c = Some o ->
  columns_heap (cached c o s) !! c = Some (with_cache o).
Proof.
  intros Hc. cbn. apply list_lookup_insert_eq. now apply lookup_lt_Some in Hc.
Qed.

Lemma cached_cached (c : ref) (o : ColumnsObj) (s : State) :
  cached c (with_cache o) (cached c o s) = cached c o s.
Proof.
  unfold cached. cbn. now rewrite list_insert_insert_eq.
Qed.

(** X8: the schema is computed once.  The first read of [data_schema]
    returns what [get_data_schema] computes (or what is already cached)
    and stores it on the instance; a second read returns the same schema
    and changes nothing; the field values are never touched.  [types]
    reads the dtypes off that schema. *)
Theorem X8_data_schema_cached (s : State) (c : ref) (o : ColumnsObj) :
  columns_heap s !! c = Some o ->
  exists s1 o1,
    Columns.data_schema c s = (Ok (schema_of o), s1)
    /\ Columns.data_schema c s1 = (Ok (schema_of o), s1)
    /\ columns_heap s1 !! c = Some o1
    /\ fields o1 = fields o
    /\ data_schema_cache o1 = Some (schema_of o)
    /\ data_heap s1 = data_heap s /\ events s1 = events s
    /\ ColumnsMore.types c s
       = (Ok (map (fun nc => (fst nc, pa.dtype (snd nc))) (schema_of o)), s1).
Proof.
  intros Hc. exists (cached c o s), (with_cache o).
  pose proof (lookup_cached c o s Hc) as Hc1.
  split; [now apply data_schema_run |]. split.
  { rewrite (data_schema_run c (with_cache o) _ Hc1). now rewrite cached_cached. }
  split; [done |]. split; [done |]. split; [done |]. split; [done |]. split; [done |].
  unfold ColumnsMore.types. now rewrite (bind_ok _ _ _ _ _ (data_schema_run c o s Hc)).
Qed.

Lemma X8_data_schema_cached_witness :
  exists s1,
    Columns.data_schema 0 Tests.store
    = (Ok [("Name A", {| pa.dtype := pd.object; pa.nullable := false |});
           ("Name B", {| pa.dtype := pd.int64; pa.nullable := false |})], s1)
    /\ ColumnsMore.types 0 Tests.store = (Ok [("Name A", pd.object); ("Name B", pd.int64)], s1).
Proof.
  destruct (X8_data_schema_cached Tests.store 0 Tests.test_columns eq_refl)
    as (s1 & o1 & E1 & _ & _ & _ & _ & _ & _ & E2).
  exists s1. split; [exact E1 | exact E2].
Defined.

Lemma set_prefix_run (s : State) (self : ref) (o : ColumnsObj) (prefix : string) :
  columns_heap s !! self = Some o ->
  wf_columns o ->
  Columns.set_prefix self prefix s
  = (Ok (length (columns_heap s)),
     {| columns_heap := columns_heap s ++
                        [{| columns_class := columns_class o;
                            fields := prefixed prefix (fields o);
                            data_schema_cache := None |}];
        data_heap := data_heap s;
        events := events s |}).
Proof.
  intros Hself Hwf. unfold Columns.set_prefix.
  rewrite (bind_ok _ _ _ _ _ (dump_column_names_ok s self o Hself Hwf)).
  rewrite (bind_ok _ _ _ _ _ (deref_columns_ok s self o Hself)).
  rewrite dict_comprehension_map by apply Hwf.
  apply (model_validate_same_keys s o Hwf).
  unfold prefixed. rewrite map_map. now apply map_ext.
Qed.

(** X9: the instance [set_prefix] returns does not inherit the cached
    schema.  Whatever the receiver has cached, the schema of the new
    instance is what [get_data_schema] computes from the prefixed names,
    and reading it leaves the receiver as it was. *)
Theorem X9_set_prefix_fresh_schema (s : State) (self : ref) (o : ColumnsObj) (prefix : string) :
  columns_heap s !! self = Some o ->
  wf_columns o ->
  exists new s' s'',
    Columns.set_prefix self prefix s = (Ok new, s')
    /\ Columns.data_schema new s'
       = (Ok (get_data_schema (columns_class o) (prefixed prefix (fields o))), s'')
    /\ columns_heap s'' !! self = Some o.
Proof.
  intros Hself Hwf. rewrite (set_prefix_run s self o prefix Hself Hwf).
  set (o' := {| columns_class := columns_class o; fields := prefixed prefix (fields o);
                data_schema_cache := None |}).
  set (s' := {| columns_heap := columns_heap s ++ [o'] |}).
  assert (columns_heap s' !! length (columns_heap s) = Some o') as Hnew
    by (cbn; rewrite lookup_app_r by done; now rewrite Nat.sub_diag).
  exists (length (columns_heap s)), s', (cached (length (columns_heap s)) o' s').
  split; [done |]. split; [exact (data_schema_run _ o' s' Hnew) |].
  cbn. rewrite list_lookup_insert_ne by (apply lookup_lt_Some in Hself; lia).
  now apply lookup_app_l_Some.
Qed.

Lemma X9_set_prefix_fresh_schema_witness :
  exists s'',
    (let* _ := Columns.data_schema 0 in
     let* new := Columns.set_prefix 0 "left_" in
     Columns.data_schema new) Tests.store
    = (Ok [("left_Name A", {| pa.dtype := pd.object; pa.nullable := false |});
           ("left_Name B", {| pa.dtype := pd.int64; pa.nullable := false |})], s'').
Proof.
  destruct (X9_set_prefix_fresh_schema (cached 0 Tests.test_columns Tests.store) 0
              (with_cache Tests.test_columns) "left_") as (new & s' & s'' & E1 & E2 & _).
  - reflexivity.
  - unfold wf_columns. cbn. split; [done |]. split.
    + repeat constructor; rewrite ?elem_of_cons, ?elem_of_nil; intuition discriminate.
    + rewrite !elem_of_cons, elem_of_nil. intuition discriminate.
  - exists s''.
    rewrite (bind_ok _ _ _ _ _ (data_schema_run 0 Tests.test_columns Tests.store eq_refl)).
    rewrite (bind_ok _ _ _ _ _ E1). exact E2.
Defined.

Lemma validate_fields_defaults (declared : list (string * option string)) :
  Forall (fun f => is_Some (snd f)) declared ->
  Columns.validate_fields declared []
  = Ok (map (fun f => (fst f, default "" (snd f))) declared).
Proof.
  induction 1 as [| [name [v |]] declared Hv Hall IH]; cbn; [done | | ].
  - now rewrite IH.
  - now destruct Hv.
Qed.

Lemma validate_fields_required (before after : list (string * option string))
    (name : string) :
  Forall (fun f => is_Some (snd f)) before ->
  Columns.validate_fields (before ++ (name, None) :: after) [] = Raise (ValidationError name).
Proof.
  induction 1 as [| [n [v |]] before Hv Hall IH]; cbn; [done | | ].
  - now rewrite IH.
  - now destruct Hv.
Qed.

Lemma keys_prefixed (prefix : string) (d : list (string * string)) :
  map fst (prefixed prefix d) = map fst d.
Proof. unfold prefixed. rewrite map_map. now apply map_ext. Qed.

Lemma string_app_assoc (a b c : string) : (a +:+ b) +:+ c = a +:+ b +:+ c.
Proof.
  induction a as [| x a IH]; [done |].
  change (String x ((a +:+ b) +:+ c) = String x (a +:+ b +:+ c)). now rewrite IH.
Qed.

Lemma prefixed_prefixed (p q : string) (d : list (string * string)) :
  prefixed q (prefixed p d) = prefixed (q +:+ p) d.
Proof.
  unfold prefixed. rewrite map_map. apply map_ext. intros [k v]. cbn.
  now rewrite string_app_assoc.
Qed.

(** X10: prefixing composes.  [set_prefix(p)] followed by
    [set_prefix(q)] on the result succeeds and gives an instance with the
    field values of [set_prefix(q + p)]: each physical name is [q + p]
    followed by the original name.  In particular the instance made by
    [set_prefix] satisfies the invariant again. *)
Theorem X10_set_prefix_composes (s : State) (self : ref) (o : ColumnsObj) (p q : string) :
  columns_heap s !! self = Some o ->
  wf_columns o ->
  exists c1 s1 c2 s2 o2,
    Columns.set_prefix self p s = (Ok c1, s1)
    /\ Columns.set_prefix c1 q s1 = (Ok c2, s2)
    /\ columns_heap s2 !! c2 = Some o2
    /\ wf_columns o2
    /\ columns_class o2 = columns_class o
    /\ fields o2 = prefixed (q +:+ p) (fields o)
    /\ Columns.get_names c2 s2
       = (Ok (map (fun name => (q +:+ p) +:+ name) (map snd (fields o))), s2).
Proof.
  intros Hself Hwf.
  rewrite (set_prefix_run s self o p Hself Hwf).
  set (o1 := {| columns_class := columns_class o; fields := prefixed p (fields o);
                data_schema_cache := None |}).
  set (s1 := {| columns_heap := columns_heap s ++ [o1] |}).
  assert (columns_heap s1 !! length (columns_heap s) = Some o1) as H1
    by (cbn; rewrite lookup_app_r by done; now rewrite Nat.sub_diag).
  assert (wf_columns o1) as Hwf1.
  { destruct Hwf as (Hdecl & Hnd & Hds). unfold wf_columns. cbn.
    now rewrite keys_prefixed. }
  pose proof (set_prefix_run s1 _ o1 q H1 Hwf1) as E2.
  cbn [fields columns_class o1] in E2. rewrite prefixed_prefixed in E2.
  set (o2 := {| columns_class := columns_class o; fields := prefixed (q +:+ p) (fields o);
                data_schema_cache := None |}) in *.
  set (s2 := {| columns_heap := columns_heap s1 ++ [o2] |}) in *.
  assert (columns_heap s2 !! length (columns_heap s1) = Some o2) as H2
    by (cbn; rewrite lookup_app_r by done; now rewrite Nat.sub_diag).
  assert (wf_columns o2) as Hwf2.
  { destruct Hwf as (Hdecl & Hnd & Hds). unfold wf_columns. cbn.
    now rewrite keys_prefixed. }
  exists (length (columns_heap s)), s1, (length (columns_heap s1)), s2, o2.
  split; [done |]. split; [exact E2 |]. split; [exact H2 |]. split; [exact Hwf2 |].
  split; [done |]. split; [done |].
  rewrite (get_names_ok s2 _ o2 H2 Hwf2). cbn. unfold prefixed. now rewrite !map_map.
Qed.

Lemma X10_set_prefix_composes_witness :
  exists s2 c2,
    (let* c1 := Columns.set_prefix 0 "b_" in Columns.set_prefix c1 "a_") Tests.store
    = (Ok c2, s2)
    /\ Columns.get_names c2 s2 = (Ok ["a_b_Name A"; "a_b_Name B"], s2).
Proof.
  destruct (X10_set_prefix_composes Tests.store 0 Tests.test_columns "b_" "a_")
    as (c1 & s1 & c2 & s2 & o2 & E1 & E2 & _ & _ & _ & _ & Hnames).
  - reflexivity.
  - unfold wf_columns. cbn. split; [done |]. split.
    + repeat constructor; rewrite ?elem_of_cons, ?elem_of_nil; intuition discriminate.
    + rewrite !elem_of_cons, elem_of_nil. intuition discriminate.
  - exists s2, c2. rewrite (bind_ok _ _ _ _ _ E1). split; [exact E2 | exact Hnames].
Defined.

(** X11: [intersection] returns, without repetition, exactly the
    physical names of the instance that also occur in the given list. *)
Theorem X11_intersection (s : State) (self : ref) (o : ColumnsObj) (names : list string) :
  columns_heap s !! self = Some o ->
  wf_columns o ->
  exists l,
    ColumnsMore.intersection self names s = (Ok l, s)
    /\ NoDup l
    /\ forall x, x ∈ l <-> x ∈ map snd (fields o) /\ x ∈ names.
Proof.
  intros Hself Hwf. unfold ColumnsMore.intersection.
  rewrite (bind_ok _ _ _ _ _ (get_names_ok s self o Hself Hwf)).
  eexists. split; [reflexivity |]. split; [apply NoDup_elements |].
  intros x. rewrite elem_of_elements, elem_of_intersection, !elem_of_list_to_set. done.
Qed.

Lemma X11_intersection_witness :
  exists l,
    ColumnsMore.intersection 0 ["Extra"; "Name B"; "Name B"] Tests.store = (Ok l, Tests.store)
    /\ ("Name B" ∈ l) /\ ("Extra" ∉ l) /\ NoDup l.
Proof.
  destruct (X11_intersection Tests.store 0 Tests.test_columns ["Extra"; "Name B"; "Name B"])
    as (l & E & Hnd & Hl).
  - reflexivity.
  - unfold wf_columns. cbn. split; [done |]. split.
    + repeat constructor; rewrite ?elem_of_cons, ?elem_of_nil; intuition discriminate.
    + rewrite !elem_of_cons, elem_of_nil. intuition discriminate.
  - exists l. split; [exact E |]. rewrite !Hl. cbn.
    rewrite !elem_of_cons, !elem_of_nil. split; [| split; [| exact Hnd]].
    + split; right; now left.
    + intros [[H | [H | []]] _]; discriminate.
Defined.

(** X12: [dump_dict] returns the column names followed by one more
    entry, the serialised schema under the key "data_schema", and caches
    the schema on the way.  Feeding that dict to [model_validate] gives
    an instance with the field values of the original: the added key is
    not a field. *)
Theorem X12_dump_dict (to_json : pa.DataFrameSchema -> string)
    (s : State) (self : ref) (o : ColumnsObj) :
  columns_heap s !! self = Some o ->
  wf_columns o ->
  ColumnsMore.dump_dict to_json self s
  = (Ok (fields o ++ [("data_schema", to_json (schema_of o))]), cached self o s)
  /\ (let* d := ColumnsMore.dump_dict to_json self in
      Columns.model_validate (columns_class o) d) s
     = (Ok (length (columns_heap s)),
        {| columns_heap := <[self := with_cache o]> (columns_heap s) ++
                           [{| columns_class := columns_class o;
                               fields := fields o;
                               data_schema_cache := None |}];
           data_heap := data_heap s;
           events := events s |}).
Proof.
  intros Hself Hwf.
  assert (ColumnsMore.dump_dict to_json self s
          = (Ok (fields o ++ [("data_schema", to_json (schema_of o))]), cached self o s)) as E.
  { unfold ColumnsMore.dump_dict.
    rewrite (bind_ok _ _ _ _ _ (dump_column_names_ok s self o Hself Hwf)).
    rewrite (bind_ok _ _ _ _ _ (data_schema_run self o s Hself)).
    unfold ret. rewrite dict_set_fresh; [done | apply Hwf]. }
  split; [exact E |].
  rewrite (bind_ok _ _ _ _ _ E). destruct Hwf as (Hdecl & Hnd & Hds).
  unfold Columns.model_validate, bind, lift.
  rewrite (validate_fields_from _ _ (fields o)).
  - unfold alloc_columns. cbn. now rewrite length_insert.
  - congruence.
  - intros [k v] Hin. apply dict_get_elem_of.
    + rewrite map_app. apply NoDup_app. split; [done |]. split.
      * intros x Hx Hx'. cbn in Hx'. apply list_elem_of_singleton in Hx'. now subst x.
      * cbn. apply NoDup_singleton.
    + apply elem_of_app. now left.
Qed.

Lemma X12_dump_dict_witness :
  fst (ColumnsMore.dump_dict (fun _ => "{}") 0 Tests.store)
  = Ok [("column_a", "Name A"); ("column_b", "Name B"); ("data_schema", "{}")].
Proof.
  destruct (X12_dump_dict (fun _ => "{}") Tests.store 0 Tests.test_columns) as [E _].
  - reflexivity.
  - unfold wf_columns. cbn. split; [done |]. split.
    + repeat constructor; rewrite ?elem_of_cons, ?elem_of_nil; intuition discriminate.
    + rewrite !elem_of_cons, elem_of_nil. intuition discriminate.
  - now rewrite E.
Defined.

(** ** BaseData: what construction guarantees *)

Lemma init_dangling (cls : DataClass) (data : pd.DataFrame) (c : ref) (s : State) :
  columns_heap s !! c = None ->
  exists e, BaseData.__init__ cls data (Some c) false s = (Raise e, s).
Proof.
  intros Hc. unfold BaseData.__init__, Columns.validate_data, Columns.data_schema,
    deref_columns, bind, ret. cbn. rewrite Hc. eauto.
Qed.

(** X13: checked construction establishes the invariant.  Whenever
    [from_dataframe] (and so [new_data], [transform], [truncate_columns]
    and [prefix_columns], which end in it) returns without [skip_check],
    the new object belongs to the class, refers to the very [Columns]
    instance it was given, and its frame satisfies the schema of that
    instance, which is cached from then on. *)
Theorem X13_checked_construction (cls : DataClass) (data : pd.DataFrame) (c : ref)
    (f : option BaseTransform) (s s' : State) (d : ref) :
  BaseData.from_dataframe cls data (Some c) f None s = (Ok d, s') ->
  exists od oc,
    data_heap s' !! d = Some od
    /\ __class__ od = cls
    /\ columns od = c
    /\ (f = None -> _data od = data)
    /\ columns_heap s' !! c = Some oc
    /\ data_schema_cache oc = Some (schema_of oc)
    /\ pa.valid (schema_of oc) (_data od) = true.
Proof.
  unfold BaseData.from_dataframe. intros E.
  apply bind_inv_ok in E as (data' & s1 & Hf & E).
  assert (f = None -> data' = data) as Hdata.
  { intros ->. cbn in Hf. now inversion Hf. }
  change (BaseData.__init__ cls data' (Some c) false s1 = (Ok d, s')) in E.
  destruct (columns_heap s1 !! c) as [oc1 |] eqn:Hc.
  - rewrite (init_checked cls data' c oc1 s1 Hc) in E.
    destruct (pa.valid (schema_of oc1) data') eqn:Hvalid; [| discriminate].
    inversion E; subst; clear E. cbn.
    exists {| __class__ := cls; columns := c; _data := data' |}, (with_cache oc1).
    split; [rewrite lookup_app_r by done; now rewrite Nat.sub_diag |].
    split; [done |]. split; [done |]. split; [done |].
    split; [apply list_lookup_insert_eq; now apply lookup_lt_Some in Hc |]. done.
  - destruct (init_dangling cls data' c s1 Hc) as (e & He). rewrite He in E. discriminate.
Qed.

Lemma X13_checked_construction_witness :
  exists d s' od oc,
    BaseData.from_dataframe Tests.TestData Tests.data_na (Some 0)
      (Some Tests.Refill) None Tests.store = (Ok d, s')
    /\ data_heap s' !! d = Some od
    /\ columns_heap s' !! 0 = Some oc
    /\ pa.valid (schema_of oc) (_data od) = true.
Proof.
  destruct (X13_checked_construction Tests.TestData Tests.data_na 0 (Some Tests.Refill)
              Tests.store
              (snd (BaseData.from_dataframe Tests.TestData Tests.data_na (Some 0)
                      (Some Tests.Refill) None Tests.store)) 3)
    as (od & oc & Hd & _ & _ & _ & Hc & _ & Hv).
  - reflexivity.
  - eexists 3, _, od, oc. split; [reflexivity |]. auto.
Defined.

(** X14: what the constructor leaves alone.  Given a [Columns]
    instance, [BaseData.__init__] (whether it validates or skips,
    returns or raises) creates no [Columns] instance and changes neither
    the class, nor the field values, nor the schema of any of them; and
    every [BaseData] object already in the store stays as it is. *)
Theorem X14_construction_frame (cls : DataClass) (data : pd.DataFrame) (c : ref)
    (skip_check : bool) (s : State) :
  let s' := snd (BaseData.__init__ cls data (Some c) skip_check s) in
  length (columns_heap s') = length (columns_heap s)
  /\ (forall r o, columns_heap s !! r = Some o ->
        exists o', columns_heap s' !! r = Some o'
                   /\ columns_class o' = columns_class o
                   /\ fields o' = fields o
                   /\ schema_of o' = schema_of o)
  /\ (forall r x, data_heap s !! r = Some x -> data_heap s' !! r = Some x).
Proof.
  destruct skip_check.
  - cbn. split; [done |]. split; [eauto |]. intros r x Hx. now apply lookup_app_l_Some.
  - destruct (columns_heap s !! c) as [oc |] eqn:Hc.
    + rewrite (init_checked cls data c oc s Hc).
      assert (forall r o, columns_heap s !! r = Some o ->
                exists o', <[c := with_cache oc]> (columns_heap s) !! r = Some o'
                           /\ columns_class o' = columns_class o
                           /\ fields o' = fields o
                           /\ schema_of o' = schema_of o) as Hframe.
      { intros r o Hr. destruct (decide (c = r)) as [<- | Hne].
        - exists (with_cache oc). rewrite list_lookup_insert_eq
            by (now apply lookup_lt_Some in Hc).
          pose proof (eq_trans (eq_sym Hr) Hc) as Ho. inversion Ho; subst o. done.
        - exists o. now rewrite list_lookup_insert_ne. }
      destruct (pa.valid (schema_of oc) data); cbn; rewrite length_insert;
        (split; [done |]); (split; [exact Hframe |]); [| done].
      intros r x Hx. now apply lookup_app_l_Some.
    + destruct (init_dangling cls data c s Hc) as (e & He). rewrite He. cbn.
      split; [done |]. split; [| done]. intros r o Hr. exists o. done.
Qed.

(** X15: construction without a [Columns] instance.  The constructor
    then builds the default instance of the class's column class, a new
    one at every call.  With [skip_check] the object is made on it, after
    the warning; and when the column class has a field without default,
    the constructor raises ValidationError, with or without
    [skip_check], before any warning and without making anything. *)
Theorem X15_default_columns (cls : DataClass) (data : pd.DataFrame) (s : State) :
  (Forall (fun f => is_Some (snd f)) (model_fields (_column_class cls)) ->
   exists d s',
     BaseData.__init__ cls data None true s = (Ok d, s')
     /\ columns_heap s !! length (columns_heap s) = None
     /\ data_heap s' !! d
        = Some {| __class__ := cls; columns := length (columns_heap s); _data := data |}
     /\ columns_heap s' !! length (columns_heap s)
        = Some {| columns_class := _column_class cls;
                  fields := map (fun f => (fst f, default "" (snd f)))
                                (model_fields (_column_class cls));
                  data_schema_cache := None |}
     /\ events s' = events s ++ [UserWarning ("Data check skipped " +:+ __name__ cls +:+ ".")])
  /\ (forall before name after skip_check,
        model_fields (_column_class cls) = before ++ (name, None) :: after ->
        Forall (fun f => is_Some (snd f)) before ->
        exists field,
          BaseData.__init__ cls data None skip_check s = (Raise (ValidationError field), s)).
Proof.
  split.
  - intros Hall. unfold BaseData.__init__.
    unfold Columns.__init__, Columns.model_validate, bind, lift.
    rewrite validate_fields_defaults by done. cbn.
    eexists _, _. split; [reflexivity |]. cbn.
    split; [apply lookup_ge_None; lia |].
    split; [rewrite lookup_app_r by done; now rewrite Nat.sub_diag |].
    split; [rewrite lookup_app_r by done; now rewrite Nat.sub_diag |]. done.
  - intros before name after skip_check Hfields Hall. unfold BaseData.__init__.
    unfold Columns.__init__, Columns.model_validate, bind, lift.
    exists name. now rewrite Hfields, validate_fields_required.
Qed.

Lemma X15_default_columns_witness :
  (exists d s',
     BaseData.__init__ Tests.TestData Tests.data_na None true Tests.store = (Ok d, s')
     /\ data_heap s' !! d
        = Some {| __class__ := Tests.TestData; columns := 1; _data := Tests.data_na |}
     /\ columns_heap s' !! 1 = Some Tests.test_columns)
  /\ (exists field,
        BaseData.__init__ {| __name__ := "KeyedData"; _column_class := MoreTests.Keyed |}
          Tests.data None true Tests.store
        = (Raise (ValidationError field), Tests.store)).
Proof.
  split.
  - destruct (X15_default_columns Tests.TestData Tests.data_na Tests.store) as [H _].
    destruct H as (d & s' & E & _ & Hd & Hc & _).
    + repeat constructor; eexists; reflexivity.
    + exists d, s'. auto.
  - destruct (X15_default_columns {| __name__ := "KeyedData"; _column_class := MoreTests.Keyed |}
                Tests.data Tests.store) as [_ H].
    apply (H [("column_a", Some "Name A")] "key" [("other", None)] true).
    + reflexivity.
    + repeat constructor. eexists; reflexivity.
Defined.

(** X16: transforming with the identity transform is [new_data] on the
    object's own frame. *)
Theorem X16_identity_transform (s : State) (d : ref) (od : BaseDataObj) :
  data_heap s !! d = Some od ->
  BaseData.transform d identity_transform s = BaseData.new_data d (_data od) s.
Proof.
  intros Hd. rewrite (new_data_is_init s d od _ Hd).
  now apply transform_is_init.
Qed.

Lemma X16_identity_transform_witness :
  exists s', BaseData.transform 0 identity_transform Tests.store = (Raise SchemaError, s').
Proof.
  rewrite (X16_identity_transform Tests.store 0
             {| __class__ := Tests.TestData; columns := 0; _data := Tests.data_na |} eq_refl).
  eexists. reflexivity.
Defined.

(** X17: the transform runs first.  When the transform given to
    [from_dataframe] raises, the call raises the same exception in the
    state the transform left: nothing is validated, no default [Columns]
    instance is built, no object is made.  The same holds for
    [transform]. *)
Theorem X17_failing_transform (cls : DataClass) (data : pd.DataFrame)
    (c : option ref) (kwargs : option bool) (f : BaseTransform)
    (s s1 : State) (e : exn) :
  call f data s = (Raise e, s1) ->
  BaseData.from_dataframe cls data c (Some f) kwargs s = (Raise e, s1)
  /\ (forall d od, data_heap s !! d = Some od -> _data od = data ->
        BaseData.transform d f s = (Raise e, s1)).
Proof.
  intros Hf. split.
  - unfold BaseData.from_dataframe. cbn. unfold bind at 1. now rewrite Hf.
  - intros d od Hd <-. unfold BaseData.transform.
    rewrite (bind_ok _ _ _ _ _ (deref_data_ok s d od Hd)).
    unfold BaseData.from_dataframe. cbn. unfold bind at 1. now rewrite Hf.
Qed.

Lemma X17_failing_transform_witness :
  BaseData.from_dataframe Tests.TestData Tests.data None
    (Some MoreTests.Failing) None Tests.empty_store
  = (Raise (RuntimeError "failed"), Tests.empty_store).
Proof.
  apply (X17_failing_transform Tests.TestData Tests.data None None). reflexivity.
Defined.

(** ** BaseData: prefixing *)

Lemma dict_get_dict_set (d : list (string * string)) (k v k' : string) :
  dict_get (dict_set d k v) k' = if decide (k = k') then Some v else dict_get d k'.
Proof.
  induction d as [| [k0 v0] d IH]; cbn [dict_set].
  - rewrite dict_get_cons. now destruct (decide (k = k')).
  - destruct (decide (k0 = k)) as [-> | Hne]; rewrite !dict_get_cons.
    + now destruct (decide (k = k')).
    + rewrite IH. destruct (decide (k0 = k')) as [<- | Hne']; [| done].
      now rewrite decide_False by congruence.
Qed.

Lemma dict_get_dict_of_names (f : string -> string) (names : list string) (k : string) :
  k ∈ names -> dict_get (dict_of_names f names) k = Some (f k).
Proof.
  unfold dict_of_names.
  enough (forall acc, k ∈ names \/ dict_get acc k = Some (f k) ->
            dict_get (fold_left (fun acc name => dict_set acc name (f name)) names acc) k
            = Some (f k)) as H by (intros Hin; apply H; now left).
  induction names as [| n names IH]; intros acc Hor; cbn.
  - destruct Hor as [Hin | Hacc]; [now apply elem_of_nil in Hin | done].
  - apply IH. rewrite dict_get_dict_set.
    destruct (decide (n = k)) as [-> | Hne]; [now right |].
    destruct Hor as [Hin | Hacc]; [| now right].
    apply elem_of_cons in Hin as [E | Hin]; [congruence | now left].
Qed.

(** Renaming with the comprehension over the frame's own labels puts
    the prefix before every label. *)
Lemma rename_with_prefix (prefix : string) (df : pd.DataFrame) :
  pd_rename df (dict_of_names (fun name => prefix +:+ name) (pd.columns df))
  = relabelled prefix df.
Proof.
  unfold pd_rename, relabelled. f_equal.
  apply map_ext_in. intros [k v] Hin. cbn.
  rewrite dict_get_dict_of_names; [done |].
  apply list_elem_of_In in Hin. now apply (list_elem_of_fmap_2 fst) in Hin.
Qed.

Lemma prefix_columns_run (s : State) (d : ref) (od : BaseDataObj) (oc : ColumnsObj)
    (prefix : string) :
  data_heap s !! d = Some od ->
  columns_heap s !! columns od = Some oc ->
  wf_columns oc ->
  BaseDataMore.prefix_columns d prefix s
  = BaseData.__init__ (__class__ od) (relabelled prefix (_data od))
      (Some (length (columns_heap s))) false
      {| columns_heap := columns_heap s ++
                         [{| columns_class := columns_class oc;
                             fields := prefixed prefix (fields oc);
                             data_schema_cache := None |}];
         data_heap := data_heap s;
         events := events s |}.
Proof.
  intros Hd Hc Hwf. unfold BaseDataMore.prefix_columns.
  rewrite (bind_ok _ _ _ _ _ (data_ok s d od Hd)).
  rewrite (bind_ok _ _ _ _ _ (deref_data_ok s d od Hd)).
  rewrite (bind_ok _ _ _ _ _ (set_prefix_run s _ oc prefix Hc Hwf)).
  now rewrite rename_with_prefix.
Qed.

(** X19: [prefix_columns] builds a new [Columns] instance with the
    prefixed names (the result does not share the receiver's), puts the
    prefix before every label of the frame, and validates the renamed
    frame against the schema computed from the prefixed names.  When it
    passes, the new object holds the renamed frame and the new instance;
    when it does not, SchemaError is raised.  The receiver and its
    [Columns] instance stay as they were. *)
Theorem X19_prefix_columns (s : State) (d : ref) (od : BaseDataObj) (oc : ColumnsObj)
    (prefix : string) :
  data_heap s !! d = Some od ->
  columns_heap s !! columns od = Some oc ->
  wf_columns oc ->
  pd.columns (relabelled prefix (_data od))
    = map (fun name => prefix +:+ name) (pd.columns (_data od))
  /\ (pa.valid (get_data_schema (columns_class oc) (prefixed prefix (fields oc)))
               (relabelled prefix (_data od)) = true ->
      exists d' c' s',
        BaseDataMore.prefix_columns d prefix s = (Ok d', s')
        /\ data_heap s' !! d'
           = Some {| __class__ := __class__ od; columns := c';
                     _data := relabelled prefix (_data od) |}
        /\ c' <> columns od
        /\ Columns.get_names c' s'
           = (Ok (map (fun name => prefix +:+ name) (map snd (fields oc))), s')
        /\ columns_heap s' !! columns od = Some oc
        /\ data_heap s' !! d = Some od)
  /\ (pa.valid (get_data_schema (columns_class oc) (prefixed prefix (fields oc)))
               (relabelled prefix (_data od)) = false ->
      exists s', BaseDataMore.prefix_columns d prefix s = (Raise SchemaError, s')
                 /\ data_heap s' = data_heap s).
Proof.
  intros Hd Hc Hwf. split.
  { unfold pd.columns, relabelled. cbn. rewrite !map_map. now apply map_ext. }
  rewrite (prefix_columns_run s d od oc prefix Hd Hc Hwf).
  set (o' := {| columns_class := columns_class oc; fields := prefixed prefix (fields oc);
                data_schema_cache := None |}).
  set (s0 := {| columns_heap := columns_heap s ++ [o'] |}).
  assert (columns_heap s0 !! length (columns_heap s) = Some o') as Hnew
    by (cbn; rewrite lookup_app_r by done; now rewrite Nat.sub_diag).
  rewrite (init_checked _ _ _ o' s0 Hnew).
  change (schema_of o') with (get_data_schema (columns_class oc) (prefixed prefix (fields oc))).
  pose proof (lookup_lt_Some _ _ _ Hc) as Hlt.
  split; intros ->.
  - eexists _, _, _. split; [reflexivity |]. cbn.
    split; [rewrite lookup_app_r by done; now rewrite Nat.sub_diag |].
    split; [lia |]. split.
    + assert (wf_columns (with_cache o')) as Hwf'.
      { destruct Hwf as (Hdecl & Hnd & Hds). unfold wf_columns. cbn.
        now rewrite keys_prefixed. }
      erewrite get_names_ok; [| | exact Hwf'].
      * cbn. unfold prefixed. now rewrite !map_map.
      * cbn. apply list_lookup_insert_eq. rewrite length_app. cbn. lia.
    + split; [| now apply lookup_app_l_Some].
      rewrite list_lookup_insert_ne by lia. now apply lookup_app_l_Some.
  - eexists. split; [reflexivity | done].
Qed.

Lemma X19_prefix_columns_witness :
  exists d' c' s',
    BaseDataMore.prefix_columns 2 "left_" Tests.store = (Ok d', s')
    /\ data_heap s' !! d'
       = Some {| __class__ := Tests.TestData; columns := c';
                 _data := relabelled "left_" Tests.data_extra |}
    /\ c' <> 0
    /\ Columns.get_names c' s' = (Ok ["left_Name A"; "left_Name B"], s').
Proof.
  destruct (X19_prefix_columns Tests.store 2
              {| __class__ := Tests.TestData; columns := 0; _data := Tests.data_extra |}
              Tests.test_columns "left_") as (_ & Hok & _).
  - reflexivity.
  - reflexivity.
  - unfold wf_columns. cbn. split; [done |]. split.
    + repeat constructor; rewrite ?elem_of_cons, ?elem_of_nil; intuition discriminate.
    + rewrite !elem_of_cons, elem_of_nil. intuition discriminate.
  - destruct (Hok eq_refl) as (d' & c' & s' & E & Hd' & Hne & Hnames & _).
    exists d', c', s'. auto.
Defined.

Lemma labelled_relabelled (prefix k : string) (df : pd.DataFrame) :
  pd.labelled (prefix +:+ k) (relabelled prefix df)
  = map (fun kv => (prefix +:+ fst kv, snd kv)) (pd.labelled k df).
Proof.
  unfold pd.labelled, relabelled. cbn [pd.items].
  induction (pd.items df) as [| [k0 v0] l IH]; [done |].
  cbn [map]. destruct (decide (k0 = k)) as [-> | Hne].
  - rewrite !filter_cons_True by done. cbn [map]. now rewrite IH.
  - rewrite !filter_cons_False; [done | done |].
    cbn. intros E. apply Hne. now apply (inj (String.app prefix)) in E.
Qed.

(** Prefixing the labels of the schema and of the frame alike does not
    change the verdict of the validation. *)
Lemma valid_relabelled (prefix : string) (schema : pa.DataFrameSchema) (df : pd.DataFrame) :
  pa.valid (map (fun nc => (prefix +:+ fst nc, snd nc)) schema) (relabelled prefix df)
  = pa.valid schema df.
Proof.
  unfold pa.valid. induction schema as [| [k c] schema IH]; [done |].
  cbn [map forallb]. rewrite IH. f_equal.
  unfold pa.column_ok. cbn [fst snd]. rewrite labelled_relabelled.
  destruct (pd.labelled k df) as [| kv found]; [done |].
  cbn [map]. cbn [forallb snd]. f_equal.
  induction found as [| x found IHf]; [done |]. cbn. now rewrite IHf.
Qed.

(** X20: prefixing preserves validity.  For an instance whose schema
    follows its names (the schema of the prefixed names is the schema of
    the names with every column label prefixed), [prefix_columns]
    returns a new object over the relabelled frame exactly when the
    receiver's frame satisfies the receiver's schema, and raises
    SchemaError exactly when it does not. *)
Theorem X20_prefix_preserves_validity (s : State) (d : ref) (od : BaseDataObj)
    (oc : ColumnsObj) (prefix : string) :
  data_heap s !! d = Some od ->
  columns_heap s !! columns od = Some oc ->
  wf_columns oc ->
  get_data_schema (columns_class oc) (prefixed prefix (fields oc))
    = map (fun nc => (prefix +:+ fst nc, snd nc))
          (get_data_schema (columns_class oc) (fields oc)) ->
  (pa.valid (get_data_schema (columns_class oc) (fields oc)) (_data od) = true ->
   exists d' c' s',
     BaseDataMore.prefix_columns d prefix s = (Ok d', s')
     /\ data_heap s' !! d'
        = Some {| __class__ := __class__ od; columns := c';
                  _data := relabelled prefix (_data od) |})
  /\ (pa.valid (get_data_schema (columns_class oc) (fields oc)) (_data od) = false ->
      exists s', BaseDataMore.prefix_columns d prefix s = (Raise SchemaError, s')).
Proof.
  intros Hd Hc Hwf Heq.
  rewrite (prefix_columns_run s d od oc prefix Hd Hc Hwf).
  set (o' := {| columns_class := columns_class oc; fields := prefixed prefix (fields oc);
                data_schema_cache := None |}).
  set (s0 := {| columns_heap := columns_heap s ++ [o'] |}).
  assert (columns_heap s0 !! length (columns_heap s) = Some o') as Hnew
    by (cbn; rewrite lookup_app_r by done; now rewrite Nat.sub_diag).
  rewrite (init_checked _ _ _ o' s0 Hnew).
  change (schema_of o') with (get_data_schema (columns_class oc) (prefixed prefix (fields oc))).
  rewrite Heq, valid_relabelled.
  split; intros ->.
  - eexists _, _, _. split; [reflexivity |]. cbn.
    rewrite lookup_app_r by done. now rewrite Nat.sub_diag.
  - eexists. reflexivity.
Qed.

Lemma X20_prefix_preserves_validity_witness :
  (exists d' c' s',
     BaseDataMore.prefix_columns 2 "left_" Tests.store = (Ok d', s')
     /\ data_heap s' !! d'
        = Some {| __class__ := Tests.TestData; columns := c';
                  _data := relabelled "left_" Tests.data_extra |})
  /\ (exists s', BaseDataMore.prefix_columns 0 "left_" Tests.store = (Raise SchemaError, s')).
Proof.
  assert (wf_columns Tests.test_columns) as Hwf.
  { unfold wf_columns. cbn. split; [done |]. split.
    - repeat constructor; rewrite ?elem_of_cons, ?elem_of_nil; intuition discriminate.
    - rewrite !elem_of_cons, elem_of_nil. intuition discriminate. }
  split.
  - destruct (X20_prefix_preserves_validity Tests.store 2
                {| __class__ := Tests.TestData; columns := 0; _data := Tests.data_extra |}
                Tests.test_columns "left_" eq_refl eq_refl Hwf eq_refl) as [Hok _].
    now apply Hok.
  - destruct (X20_prefix_preserves_validity Tests.store 0
                {| __class__ := Tests.TestData; columns := 0; _data := Tests.data_na |}
                Tests.test_columns "left_" eq_refl eq_refl Hwf eq_refl) as [_ Hbad].
    now apply Hbad.
Defined.

(** ** MergeContainer *)

Lemma nonempty_length (p : string) : p <> "" -> (0 <? String.length p)%nat = true.
Proof. destruct p; [done | reflexivity]. Qed.

(** X21: [_prefix_columns] touches a side only when its prefix is not
    empty.  With two empty prefixes it returns the two objects given and
    does nothing (unlike [prefix_columns] with an empty prefix, which
    builds and validates a new object).  With only the right prefix set
    the left object is returned as it is.  The left side is handled
    first: when prefixing it raises, the right side is never touched. *)
Theorem X21_merge_prefix_columns (left right : ref) (p1 p2 : string) (s : State) :
  MergeContainer._prefix_columns left right ("", "") s = (Ok (left, right), s)
  /\ (p2 <> "" ->
      MergeContainer._prefix_columns left right ("", p2) s
      = (let* right' := BaseDataMore.prefix_columns right p2 in ret (left, right')) s)
  /\ (p1 <> "" ->
      (forall e s1, BaseDataMore.prefix_columns left p1 s = (Raise e, s1) ->
         MergeContainer._prefix_columns left right (p1, p2) s = (Raise e, s1))
      /\ (forall left' s1, BaseDataMore.prefix_columns left p1 s = (Ok left', s1) ->
            MergeContainer._prefix_columns left right (p1, "") s = (Ok (left', right), s1))).
Proof.
  split; [reflexivity |]. split.
  - intros H2. unfold MergeContainer._prefix_columns. cbn [fst snd].
    rewrite (nonempty_length p2 H2). reflexivity.
  - intros H1. unfold MergeContainer._prefix_columns. cbn [fst snd].
    rewrite (nonempty_length p1 H1). split.
    + intros e s1 E. unfold bind at 1. now rewrite E.
    + intros left' s1 E. unfold bind at 1. now rewrite E.
Qed.

Lemma X21_merge_prefix_columns_witness :
  (exists s', MergeContainer._prefix_columns 0 2 ("left_", "right_") Tests.store
              = (Raise SchemaError, s'))
  /\ (exists l' s', MergeContainer._prefix_columns 2 0 ("left_", "") Tests.store
                    = (Ok (l', 0), s')).
Proof.
  split.
  - destruct (X21_merge_prefix_columns 0 2 "left_" "right_" Tests.store) as (_ & _ & H).
    destruct H as [Hraise _]; [discriminate |].
    exists (snd (BaseDataMore.prefix_columns 0 "left_" Tests.store)).
    apply Hraise. reflexivity.
  - destruct (X21_merge_prefix_columns 2 0 "left_" "" Tests.store) as (_ & _ & H).
    destruct H as [_ Hok]; [discriminate |].
    exists 3, (snd (BaseDataMore.prefix_columns 2 "left_" Tests.store)).
    apply Hok. reflexivity.
Defined.

(** ** Missing columns *)

Lemma getitem_outcome (df : pd.DataFrame) (keys : list string) :
  (Forall (fun k => k ∈ pd.columns df) keys /\ pd.getitem df keys = Ok (selected df keys))
  \/ (exists missing,
        pd.getitem df keys = Raise (KeyError missing)
        /\ missing <> []
        /\ forall k, k ∈ missing <-> k ∈ keys /\ k ∉ pd.columns df).
Proof.
  unfold pd.getitem.
  destruct (filter (fun k => pd.labelled k df = []) keys) as [| m ms] eqn:Hf.
  - left. split; [| done]. apply Forall_forall. intros k Hk.
    destruct (decide (k ∈ pd.columns df)) as [| Hout]; [done |].
    assert (k ∈ filter (fun k => pd.labelled k df = []) keys) as Hin
      by (apply list_elem_of_filter; split; [now apply labelled_nil | done]).
    rewrite Hf in Hin. now apply elem_of_nil in Hin.
  - right. exists (m :: ms). split; [done |]. split; [done |].
    intros k. rewrite <- Hf, list_elem_of_filter, labelled_nil. tauto.
Qed.

(** X22: [get_values_presence] never changes the state, and it raises
    KeyError exactly when some requested name is not a label of the
    frame; the error then names the requested labels that are absent,
    and only those. *)
Theorem X22_presence_missing_column (s : State) (d : ref) (od : BaseDataObj)
    (cols : list string) :
  data_heap s !! d = Some od ->
  snd (BaseData.get_values_presence d cols s) = s
  /\ ((exists k, k ∈ cols /\ k ∉ pd.columns (_data od)) <->
      exists missing, fst (BaseData.get_values_presence d cols s) = Raise (KeyError missing))
  /\ (forall missing,
        fst (BaseData.get_values_presence d cols s) = Raise (KeyError missing) ->
        forall k, k ∈ missing <-> k ∈ cols /\ k ∉ pd.columns (_data od)).
Proof.
  intros Hd. unfold BaseData.get_values_presence.
  rewrite (bind_ok _ _ _ _ _ (data_ok s d od Hd)). unfold bind, lift.
  destruct (getitem_outcome (_data od) cols) as [[Hall E] | (m & E & Hne & Hm)];
    rewrite E; cbn.
  - split; [done |]. split; [| intros missing Hx; discriminate].
    split; [| intros (missing & Hx); discriminate].
    intros (k & Hin & Hout). rewrite Forall_forall in Hall. now destruct (Hout (Hall k Hin)).
  - split; [done |]. split.
    + split; [eauto |]. intros _. destruct m as [| k m]; [done |].
      exists k. apply Hm. apply elem_of_cons. now left.
    + intros missing Hx. inversion Hx; subst. exact Hm.
Qed.

Lemma X22_presence_missing_column_witness :
  BaseData.get_values_presence 0 ["Name B"; "Name C"; "Name A"; "Name D"] Tests.store
  = (Raise (KeyError ["Name C"; "Name D"]), Tests.store).
Proof.
  destruct (X22_presence_missing_column Tests.store 0
              {| __class__ := Tests.TestData; columns := 0; _data := Tests.data_na |}
              ["Name B"; "Name C"; "Name A"; "Name D"] eq_refl) as (Hs & _ & _).
  reflexivity.
Defined.

Lemma truncate_columns_missing (s : State) (d : ref) (od : BaseDataObj)
    (oc : ColumnsObj) (k : string) :
  data_heap s !! d = Some od ->
  columns_heap s !! columns od = Some oc ->
  wf_columns oc ->
  k ∈ map snd (fields oc) ->
  k ∉ pd.columns (_data od) ->
  exists missing, BaseData.truncate_columns d s = (Raise (KeyError missing), s).
Proof.
  intros Hd Hc Hwf Hin Hout. unfold BaseData.truncate_columns.
  rewrite (bind_ok _ _ _ _ _ (data_ok s d od Hd)).
  rewrite (bind_ok _ _ _ _ _ (c_ok s d od Hd)).
  rewrite (bind_ok _ _ _ _ _ (get_names_ok s _ oc Hc Hwf)).
  unfold bind at 1. unfold lift.
  destruct (getitem_missing (_data od) (map snd (fields oc)) k Hin Hout) as (m & E).
  rewrite E. eauto.
Qed.

(** X23: [truncate_columns] on a table that lacks a declared physical
    name raises KeyError from the column selection: nothing is validated,
    no object is made, the state is untouched. *)
Theorem X23_truncate_missing_column (s : State) (d : ref) (od : BaseDataObj)
    (oc : ColumnsObj) (k : string) :
  data_heap s !! d = Some od ->
  columns_heap s !! columns od = Some oc ->
  wf_columns oc ->
  k ∈ map snd (fields oc) ->
  k ∉ pd.columns (_data od) ->
  exists missing,
    BaseData.truncate_columns d s = (Raise (KeyError missing), s) /\ k ∈ missing.
Proof.
  intros Hd Hc Hwf Hin Hout. unfold BaseData.truncate_columns.
  rewrite (bind_ok _ _ _ _ _ (data_ok s d od Hd)).
  rewrite (bind_ok _ _ _ _ _ (c_ok s d od Hd)).
  rewrite (bind_ok _ _ _ _ _ (get_names_ok s _ oc Hc Hwf)).
  unfold bind at 1. unfold lift.
  destruct (getitem_outcome (_data od) (map snd (fields oc)))
    as [[Hall E] | (m & E & Hne & Hm)]; rewrite E.
  - rewrite Forall_forall in Hall. now destruct (Hout (Hall k Hin)).
  - exists m. split; [done |]. now apply Hm.
Qed.

Lemma X23_truncate_missing_column_witness :
  exists missing,
    BaseData.truncate_columns 0
      {| columns_heap := [Tests.test_columns];
         data_heap := [{| __class__ := Tests.TestData; columns := 0;
                          _data := Tests.data_no_b |}];
         events := [] |}
    = (Raise (KeyError missing),
       {| columns_heap := [Tests.test_columns];
          data_heap := [{| __class__ := Tests.TestData; columns := 0;
                           _data := Tests.data_no_b |}];
          events := [] |})
    /\ "Name B" ∈ missing.
Proof.
  apply (X23_truncate_missing_column _ 0
           {| __class__ := Tests.TestData; columns := 0; _data := Tests.data_no_b |}
           Tests.test_columns "Name B").
  - reflexivity.
  - reflexivity.
  - unfold wf_columns. cbn. split; [done |]. split.
    + repeat constructor; rewrite ?elem_of_cons, ?elem_of_nil; intuition discriminate.
    + rewrite !elem_of_cons, elem_of_nil. intuition discriminate.
  - cbn. apply elem_of_cons. right. apply elem_of_cons. now left.
  - cbn. rewrite list_elem_of_singleton. discriminate.
Defined.

(** ** Truncation, twice *)

Lemma filter_flat_map_labelled_nil (df : pd.DataFrame) (keys : list string) (k : string) :
  k ∉ keys ->
  filter (fun kv => fst kv = k) (flat_map (fun k0 => pd.labelled k0 df) keys) = [].
Proof.
  intros Hout. apply elem_of_nil_inv. intros [k1 v1] Hin.
  apply list_elem_of_filter in Hin as [E Hin]. cbn in E. subst k1.
  apply list_elem_of_In, in_flat_map in Hin as (k0 & Hk0 & Hin).
  apply list_elem_of_In, list_elem_of_filter in Hin as [E _]. cbn in E. subst k0.
  apply Hout. now apply list_elem_of_In.
Qed.

Lemma filter_labelled (df : pd.DataFrame) (k0 k : string) :
  filter (fun kv => fst kv = k) (pd.labelled k0 df)
  = if decide (k0 = k) then pd.labelled k df else [].
Proof.
  destruct (decide (k0 = k)) as [-> | Hne].
  - unfold pd.labelled. induction (pd.items df) as [| [k1 v1] l IH]; [done |].
    destruct (decide (k1 = k)) as [-> | Hne].
    + rewrite !filter_cons_True by done. now rewrite IH.
    + now rewrite filter_cons_False.
  - apply elem_of_nil_inv. intros [k1 v1] Hin.
    apply list_elem_of_filter in Hin as [E Hin]. cbn in E. subst k1.
    apply list_elem_of_filter in Hin as [E _]. cbn in E. congruence.
Qed.

(** In a selection by distinct labels, each requested label carries the
    columns it carries in the frame. *)
Lemma labelled_selected (df : pd.DataFrame) (keys : list string) (k : string) :
  NoDup keys ->
  k ∈ keys ->
  pd.labelled k (selected df keys) = pd.labelled k df.
Proof.
  unfold selected. unfold pd.labelled at 1. cbn [pd.items].
  induction keys as [| k0 ks IH]; intros Hkeys Hin.
  - now apply elem_of_nil in Hin.
  - apply NoDup_cons in Hkeys as [Hk0 Hks].
    cbn [flat_map]. rewrite filter_app, filter_labelled.
    destruct (decide (k0 = k)) as [-> | Hne].
    + rewrite filter_flat_map_labelled_nil by done. now rewrite app_nil_r.
    + cbn [app]. apply IH; [done |].
      apply elem_of_cons in Hin as [E | Hin]; [congruence | done].
Qed.

(** Selecting the same distinct labels again changes nothing. *)
Lemma selected_idempotent (df : pd.DataFrame) (keys : list string) :
  NoDup keys ->
  selected (selected df keys) keys = selected df keys.
Proof.
  intros Hkeys. unfold selected at 1 3. cbn [pd.index]. f_equal.
  assert (forall ks, (forall k, k ∈ ks -> k ∈ keys) ->
            flat_map (fun k => pd.labelled k (selected df keys)) ks
            = flat_map (fun k => pd.labelled k df) ks) as H.
  { induction ks as [| k ks IH]; intros Hsub; [done |]. cbn [flat_map].
    rewrite (labelled_selected df keys k Hkeys)
      by (apply Hsub; apply elem_of_cons; now left).
    rewrite IH; [done |]. intros k' Hk'. apply Hsub. apply elem_of_cons. now right. }
  now apply H.
Qed.

(** X24: truncating twice is truncating once.  When the physical names
    are distinct, a successful [truncate_columns] can be repeated on its
    result: the second call succeeds too and its object holds the same
    frame, on the same [Columns] instance. *)
Theorem X24_truncate_twice (s : State) (d : ref) (od : BaseDataObj) (oc : ColumnsObj)
    (d1 : ref) (s1 : State) :
  data_heap s !! d = Some od ->
  columns_heap s !! columns od = Some oc ->
  wf_columns oc ->
  NoDup (map snd (fields oc)) ->
  BaseData.truncate_columns d s = (Ok d1, s1) ->
  exists d2 s2 t,
    BaseData.truncate_columns d1 s1 = (Ok d2, s2)
    /\ data_heap s1 !! d1
       = Some {| __class__ := __class__ od; columns := columns od; _data := t |}
    /\ data_heap s2 !! d2
       = Some {| __class__ := __class__ od; columns := columns od; _data := t |}
    /\ d2 <> d1.
Proof.
  intros Hd Hc Hwf Hnames E.
  set (names := map snd (fields oc)) in *.
  assert (Forall (fun k => k ∈ pd.columns (_data od)) names) as Hall.
  { apply Forall_forall. intros k Hk.
    destruct (decide (k ∈ pd.columns (_data od))) as [| Hout]; [done |].
    destruct (truncate_columns_missing s d od oc k Hd Hc Hwf Hk Hout) as (m & Em).
    rewrite Em in E. discriminate. }
  rewrite (truncate_columns_is_init s d od oc Hd Hc Hwf Hall) in E.
  rewrite (init_checked _ _ _ oc s Hc) in E. fold names in E.
  destruct (pa.valid (schema_of oc) (selected (_data od) names)) eqn:Hvalid; [| discriminate].
  inversion E; subst d1 s1; clear E.
  set (t := selected (_data od) names).
  set (od1 := {| __class__ := __class__ od; columns := columns od; _data := t |}).
  set (s1 := {| columns_heap := <[columns od := with_cache oc]> (columns_heap s);
                data_heap := data_heap s ++ [od1] |}).
  assert (data_heap s1 !! length (data_heap s) = Some od1) as Hd1
    by (cbn; rewrite lookup_app_r by done; now rewrite Nat.sub_diag).
  assert (columns_heap s1 !! columns od1 = Some (with_cache oc)) as Hc1
    by (cbn; apply list_lookup_insert_eq; now apply lookup_lt_Some in Hc).
  assert (Forall (fun k => k ∈ pd.columns (_data od1)) (map snd (fields (with_cache oc))))
    as Hall1.
  { change (Forall (fun k => k ∈ pd.columns t) names).
    apply Forall_forall. intros k Hk.
    destruct (decide (k ∈ pd.columns t)) as [| Hout]; [done |].
    apply labelled_nil in Hout. unfold t in Hout.
    rewrite (labelled_selected _ names k Hnames Hk) in Hout.
    apply labelled_nil in Hout. rewrite Forall_forall in Hall. now destruct (Hout (Hall k Hk)). }
  rewrite (truncate_columns_is_init s1 _ od1 (with_cache oc) Hd1 Hc1 Hwf Hall1).
  rewrite (init_checked _ _ _ (with_cache oc) s1 Hc1).
  assert (selected (_data od1) (map snd (fields (with_cache oc))) = t) as ->
    by exact (selected_idempotent _ names Hnames).
  assert (schema_of (with_cache oc) = schema_of oc) as -> by reflexivity.
  fold t in Hvalid. rewrite Hvalid.
  eexists _, _, t. split; [reflexivity |]. split; [exact Hd1 |]. cbn. split.
  - rewrite lookup_app_r by (rewrite length_app; cbn; lia).
    rewrite length_app. cbn. now replace (_ - _) with 0 by lia.
  - rewrite length_app. cbn. lia.
Qed.

Lemma X24_truncate_twice_witness :
  exists d2 s2 t,
    BaseData.truncate_columns 3 (snd (BaseData.truncate_columns 2 Tests.store)) = (Ok d2, s2)
    /\ data_heap s2 !! d2
       = Some {| __class__ := Tests.TestData; columns := 0; _data := t |}
    /\ pd.columns t = ["Name A"; "Name B"].
Proof.
  destruct (X24_truncate_twice Tests.store 2
              {| __class__ := Tests.TestData; columns := 0; _data := Tests.data_extra |}
              Tests.test_columns 3 (snd (BaseData.truncate_columns 2 Tests.store)))
    as (d2 & s2 & t & E & H1 & H2 & _).
  - reflexivity.
  - reflexivity.
  - unfold wf_columns. cbn. split; [done |]. split.
    + repeat constructor; rewrite ?elem_of_cons, ?elem_of_nil; intuition discriminate.
    + rewrite !elem_of_cons, elem_of_nil. intuition discriminate.
  - cbn. repeat constructor; rewrite ?elem_of_cons, ?elem_of_nil; intuition discriminate.
  - reflexivity.
  - exists d2, s2, t. split; [exact E |]. split; [exact H2 |].
    cbn in H1. inversion H1. reflexivity.
Defined.
